(** * llmtui: the streaming chat state machine of [main.go]

    A shallow embedding of the terminal chat client: the [model] record and
    its [Update]/[View] functions, the buffered Go channel that carries the
    string-encoded stream events, the producer goroutine
    [startStreamingInBackground], the poll [listenForStreamUpdates], and the
    bubbletea runtime that runs the commands returned by [Update].

    Go strings are byte strings: they are modelled by [string] (a list of
    8-bit characters).  A Go [error] is [option string]: [None] is [nil] and
    [Some s] an error whose [Error()] text is [s]. *)

From Stdlib Require Import String Ascii List Arith Lia Bool.
From stdpp Require Import base list strings.
Import ListNotations.
Open Scope string_scope.

(** ** Data model *)

(** [chatMessage] of main.go. *)
Record chatMessage := ChatMessage { role : string; content : string }.

(** [openai.ChatCompletionMessageParamUnion], as far as [streamResponse]
    builds it: a user message or an assistant message. *)
Inductive MessageParam :=
| UserMessage (text : string)
| AssistantMessage (text : string).

(** A [*openai.Client]: [None] is the nil pointer, [Some key] a client built
    by [openai.NewClient(option.WithAPIKey(key))]. *)
Definition Client := option string.

(** A [chan string] value is a reference into the store of channels. *)
Abbreviation chanref := nat (only parsing).

(** The [model] struct of main.go. *)
Record model := Model {
  client : Client;
  modelName : string;
  messages : list chatMessage;
  input : string;
  viewport : string;
  loading : bool;
  streaming : bool;
  partialResp : string;
  err : option string;
  streamChan : option chanref
}.

(** The messages [Update] dispatches on.  [KeyMsg s] carries [msg.String()];
    [OtherMsg] stands for every [tea.Msg] no case of the switch matches. *)
Inductive Msg :=
| KeyMsg (key : string)
| msgResponse (rcontent : string) (rerr : option string)
| streamStartMsg
| streamStarted (sclient : Client) (smessages : list MessageParam) (smodelName : string)
| streamUpdateMsg (ucontent : string)
| streamCompleteMsg (ccontent : string) (cerr : option string)
| msgStreamChunk (chunk : string) (done : bool) (kerr : option string)
| OtherMsg.

(** A [tea.Cmd].  [CmdNil] is [nil], [Quit] is [tea.Quit], [Return msg] a
    closure that returns [msg] when the runtime runs it, [Batch c1 c2] is
    [tea.Batch(c1, c2)], and [Listen ch] the closure built by
    [listenForStreamUpdates(ch)]. *)
Inductive Cmd :=
| CmdNil
| Quit
| Return (msg : Msg)
| Batch (c1 c2 : Cmd)
| Listen (ch : chanref).

(** ** Styles

    The lipgloss styles are package-level values; what [Render] does to a
    string is the terminal library's concern and is kept abstract. *)
Inductive Style :=
| titleStyle | userStyle | assistantStyle | inputStyle | errorStyle | helpStyle.

(** ** Go strings *)

(** [s[:len(s)-1]] *)
Definition drop_last (s : string) : string :=
  String.substring 0 (String.length s - 1) s.

(** [s[n:]] *)
Definition string_from (n : nat) (s : string) : string :=
  String.substring n (String.length s - n) s.

(** [strings.HasPrefix(s, p)] *)
Definition HasPrefix (s p : string) : bool := String.prefix p s.

(** ** Buffered channels

    A [chan string] made by [make(chan string, capacity)]: the queue of
    pending elements, oldest first, the capacity, and whether [close] has
    been called.  Operations that panic in Go return [None]. *)
Module Chan.

Record t := Make { buf : list string; capacity : nat; closed : bool }.

(** [make(chan string, n)] *)
Definition make (n : nat) : t := Make [] n false.

(** [select { case ch <- v: default: }]: the send happens when the buffer
    has room, otherwise the default branch runs and [v] is not sent.  A send
    on a closed channel panics. *)
Definition try_send (ch : t) (v : string) : option t :=
  if closed ch then None
  else if (List.length (buf ch) <? capacity ch)%nat
       then Some (Make (buf ch ++ [v]) (capacity ch) false)
       else Some ch.

(** [close(ch)]: closing a closed channel panics. *)
Definition close (ch : t) : option t :=
  if closed ch then None else Some (Make (buf ch) (capacity ch) true).

(** What a receive finds. *)
Inductive received :=
| Value (v : string)   (* [content, ok := <-ch] with [ok = true] *)
| Closed               (* [ok = false]: closed and drained *)
| Empty.               (* nothing queued, channel open: the receive blocks *)

Definition recv (ch : t) : received * t :=
  match buf ch with
  | v :: rest => (Value v, Make rest (capacity ch) (closed ch))
  | [] => if closed ch then (Closed, ch) else (Empty, ch)
  end.

End Chan.

(** ** The gateway's stream

    [client.Chat.Completions.NewStreaming] returns a stream that is read with
    [Next]/[Current] until it is exhausted or fails; [Err] then tells which.
    A chunk is the list of its [Choices[i].Delta.Content]. *)
Record ChatCompletionChunk := Chunk { Choices : list string }.

Record Stream := MkStream {
  chunks : list ChatCompletionChunk;
  streamErr : option string
}.

(** ** Goroutines and the store

    The state of one run of [startStreamingInBackground]: spawned with its
    arguments, inside the [for stream.Next()] loop (the final send belongs
    to the iteration in which [Next] returns false), about to run the
    deferred [close], finished. *)
Inductive goroutine :=
| GStart (ch : chanref) (c : Client) (msgs : list MessageParam) (name : string)
| GLoop (ch : chanref) (rest : list ChatCompletionChunk) (serr : option string)
        (fullResponse : string)
| GClose (ch : chanref)
| GDone.

(** What lives outside the [model] value: the channels made so far, the
    goroutines started so far, and whether a goroutine has panicked (an
    unrecovered panic ends the process). *)
Record World := MkWorld {
  chans : list Chan.t;
  goroutines : list goroutine;
  panicked : bool
}.

Definition emptyWorld : World := MkWorld [] [] false.

(** ** Field updates of [model] *)

Definition set_messages (m : model) (v : list chatMessage) : model :=
  Model (client m) (modelName m) v (input m) (viewport m) (loading m)
        (streaming m) (partialResp m) (err m) (streamChan m).
Definition set_input (m : model) (v : string) : model :=
  Model (client m) (modelName m) (messages m) v (viewport m) (loading m)
        (streaming m) (partialResp m) (err m) (streamChan m).
Definition set_viewport (m : model) (v : string) : model :=
  Model (client m) (modelName m) (messages m) (input m) v (loading m)
        (streaming m) (partialResp m) (err m) (streamChan m).
Definition set_loading (m : model) (v : bool) : model :=
  Model (client m) (modelName m) (messages m) (input m) (viewport m) v
        (streaming m) (partialResp m) (err m) (streamChan m).
Definition set_streaming (m : model) (v : bool) : model :=
  Model (client m) (modelName m) (messages m) (input m) (viewport m) (loading m)
        v (partialResp m) (err m) (streamChan m).
Definition set_partialResp (m : model) (v : string) : model :=
  Model (client m) (modelName m) (messages m) (input m) (viewport m) (loading m)
        (streaming m) v (err m) (streamChan m).
Definition set_err (m : model) (v : option string) : model :=
  Model (client m) (modelName m) (messages m) (input m) (viewport m) (loading m)
        (streaming m) (partialResp m) v (streamChan m).
Definition set_streamChan (m : model) (v : option chanref) : model :=
  Model (client m) (modelName m) (messages m) (input m) (viewport m) (loading m)
        (streaming m) (partialResp m) (err m) v.

(** The line feed of ["\n"]. *)
Definition nl : string := String (Ascii.ascii_of_nat 10) EmptyString.

(** [s != ""] *)
Definition nonempty (s : string) : bool :=
  match s with EmptyString => false | String _ _ => true end.

(** ** initialModel

    [apiKey] and [modelEnv] are what [os.Getenv] returns for
    [OPENAI_API_KEY] and [OPENAI_MODEL]. *)
Definition zeroModel : model :=
  Model None "" [] "" "" false false "" None None.

Definition initialModel (apiKey modelEnv : string) : model :=
  if nonempty apiKey then
    let modelName := if nonempty modelEnv then modelEnv else "gpt-4o" in
    Model (Some apiKey) modelName [] "" "" false false "" None None
  else
    set_err zeroModel
      (Some "OPENAI_API_KEY not found in environment or .env file").

(** ** Commands built by the model *)

(** The loop of [streamResponse] that converts the transcript. *)
Definition toParam (msg : chatMessage) : MessageParam :=
  if String.eqb (role msg) "user" then UserMessage (content msg)
  else AssistantMessage (content msg).

Definition streamResponse (m : model) : Cmd :=
  Return (streamStarted (client m) (map toParam (messages m)) (modelName m)).

Definition sendMessage (m : model) : Cmd :=
  Batch (Return streamStartMsg) (streamResponse m).

(** The capacity in [make(chan string, 100)]. *)
Definition streamChanCapacity : nat := 100.

(** [style.Render(s)] of lipgloss. *)
Definition Renderer : Type := Style -> string -> string.

(** [client.Chat.Completions.NewStreaming(ctx, params)] on a non-nil client
    (given here by its API key): the provider's answer to a request. *)
Definition Gateway : Type := string -> list MessageParam -> string -> Stream.

Section Program.

Variable Render : Renderer.
Variable NewStreaming : Gateway.

(** ** Update *)

(** The result of [Update]: the new model and the command, together with
    the store after the channel allocation and goroutine start of the
    [streamStarted] case. *)
Definition Update (w : World) (m : model) (msg : Msg) : World * model * Cmd :=
  match msg with
  | KeyMsg key =>
      if String.eqb key "ctrl+c" || String.eqb key "q" then (w, m, Quit)
      else if String.eqb key "enter" then
        if nonempty (input m) && negb (loading m) then
          let userMsg := ChatMessage "user" (input m) in
          let m := set_messages m (messages m ++ [userMsg]) in
          let m := set_viewport m
                     (viewport m +:+ Render userStyle "You: " +:+ input m
                      +:+ nl +:+ nl) in
          let m := set_input m "" in
          let m := set_loading m true in
          (w, m, sendMessage m)
        else (w, m, CmdNil)
      else if String.eqb key "backspace" then
        if (0 <? String.length (input m))%nat
        then (w, set_input m (drop_last (input m)), CmdNil)
        else (w, m, CmdNil)
      else
        if negb (loading m)
        then (w, set_input m (input m +:+ key), CmdNil)
        else (w, m, CmdNil)
  | msgResponse rcontent rerr =>
      let m := set_loading m false in
      match rerr with
      | Some e => (w, set_err m (Some e), CmdNil)
      | None =>
          let assistantMsg := ChatMessage "assistant" rcontent in
          let m := set_messages m (messages m ++ [assistantMsg]) in
          let m := set_viewport m
                     (viewport m +:+ Render assistantStyle "LLM: " +:+ rcontent
                      +:+ nl +:+ nl) in
          (w, m, CmdNil)
      end
  | streamStartMsg =>
      let m := set_streaming m true in
      let m := set_partialResp m "" in
      (w, m, CmdNil)
  | streamStarted sclient smessages smodelName =>
      let ch := List.length (chans w) in
      let m := set_streamChan m (Some ch) in
      let w := MkWorld (chans w ++ [Chan.make streamChanCapacity])
                       (goroutines w ++ [GStart ch sclient smessages smodelName])
                       (panicked w) in
      (w, m, Listen ch)
  | streamUpdateMsg ucontent =>
      let m := if nonempty ucontent then set_partialResp m ucontent else m in
      match streamChan m with
      | Some ch => (w, m, Listen ch)
      | None => (w, m, CmdNil)
      end
  | streamCompleteMsg ccontent cerr =>
      let m := set_loading m false in
      let m := set_streaming m false in
      let m := set_streamChan m None in
      let m :=
        match cerr with
        | Some e => set_err m (Some e)
        | None =>
            let assistantMsg := ChatMessage "assistant" ccontent in
            let m := set_messages m (messages m ++ [assistantMsg]) in
            set_viewport m
              (viewport m +:+ Render assistantStyle "LLM: " +:+ ccontent
               +:+ nl +:+ nl)
        end in
      (w, set_partialResp m "", CmdNil)
  | msgStreamChunk chunk done kerr =>
      match kerr with
      | Some e =>
          let m := set_err m (Some e) in
          let m := set_loading m false in
          let m := set_streaming m false in
          (w, set_partialResp m "", CmdNil)
      | None =>
          if done then
            let m := set_loading m false in
            let m := set_streaming m false in
            let assistantMsg := ChatMessage "assistant" chunk in
            let m := set_messages m (messages m ++ [assistantMsg]) in
            let m := set_viewport m
                       (viewport m +:+ Render assistantStyle "LLM: " +:+ chunk
                        +:+ nl +:+ nl) in
            (w, set_partialResp m "", CmdNil)
          else
            let m := set_partialResp m chunk in
            (w, set_streaming m true, CmdNil)
      end
  | OtherMsg => (w, m, CmdNil)
  end.

(** ** View *)
Definition View (m : model) : string :=
  match err m with
  | Some e =>
      Render errorStyle ("Error: " +:+ e) +:+ nl +:+ nl
      +:+ Render helpStyle "Press q to quit."
  | None =>
      let b := "" in
      let b := b +:+ Render titleStyle "LLM TUI Chat" in
      let b := b +:+ nl in
      let b := b +:+ Render titleStyle "================" in
      let b := b +:+ nl +:+ nl in
      let b := b +:+ viewport m in
      let b :=
        if loading m then
          let b :=
            if streaming m && nonempty (partialResp m)
            then b +:+ (Render assistantStyle "LLM: " +:+ partialResp m
                        +:+ Render assistantStyle "█")
            else b +:+ Render assistantStyle "LLM is typing..." in
          b +:+ nl +:+ nl
        else b in
      let b := b +:+ (Render inputStyle "You: " +:+ input m) in
      let b := if negb (loading m) then b +:+ Render inputStyle "█" else b in
      let b := b +:+ nl +:+ nl in
      b +:+ Render helpStyle "Press Enter to send, Ctrl+C or q to quit"
  end.

(** ** The producer: startStreamingInBackground *)

(** [select { case streamChan <- v: default: }] on the channel [ch] of the
    store. *)
Definition send_nonblocking (w : World) (ch : chanref) (v : string) : World :=
  match chans w !! ch with
  | Some c =>
      match Chan.try_send c v with
      | Some c' => MkWorld (<[ch := c']> (chans w)) (goroutines w) (panicked w)
      | None => MkWorld (chans w) (goroutines w) true
      end
  | None => w
  end.

(** [close(streamChan)] *)
Definition close_chan (w : World) (ch : chanref) : World :=
  match chans w !! ch with
  | Some c =>
      match Chan.close c with
      | Some c' => MkWorld (<[ch := c']> (chans w)) (goroutines w) (panicked w)
      | None => MkWorld (chans w) (goroutines w) true
      end
  | None => MkWorld (chans w) (goroutines w) true
  end.

(** One step of the goroutine: the call of the gateway (a nil client is a
    nil dereference: the deferred close runs and the panic ends the
    process), one iteration of the loop, the final send once [Next] returns
    false, the deferred close. *)
Definition startStreamingInBackground (w : World) (g : goroutine)
  : World * goroutine :=
  match g with
  | GStart ch None _ _ =>
      let w := close_chan w ch in
      (MkWorld (chans w) (goroutines w) true, GDone)
  | GStart ch (Some key) msgs name =>
      let stream := NewStreaming key msgs name in
      (w, GLoop ch (chunks stream) (streamErr stream) "")
  | GLoop ch (chunk :: rest) serr fullResponse =>
      match Choices chunk with
      | delta :: _ =>
          if nonempty delta then
            let fullResponse := fullResponse +:+ delta in
            (send_nonblocking w ch fullResponse, GLoop ch rest serr fullResponse)
          else (w, GLoop ch rest serr fullResponse)
      | [] => (w, GLoop ch rest serr fullResponse)
      end
  | GLoop ch [] None fullResponse =>
      (send_nonblocking w ch ("DONE:" +:+ fullResponse), GClose ch)
  | GLoop ch [] (Some e) fullResponse =>
      (send_nonblocking w ch ("ERROR:" +:+ e), GClose ch)
  | GClose ch => (close_chan w ch, GDone)
  | GDone => (w, GDone)
  end.

(** ** The consumer: listenForStreamUpdates *)

(** The message built from a received element. *)
Definition streamEvent (content : string) : Msg :=
  if HasPrefix content "DONE:" then streamCompleteMsg (string_from 5 content) None
  else if HasPrefix content "ERROR:"
       then streamCompleteMsg "" (Some (string_from 6 content))
       else streamUpdateMsg content.

(** Running the closure: the [select] takes the next element when one is
    queued, finds the channel closed, or gives up after 50 milliseconds. *)
Definition listenForStreamUpdates (w : World) (ch : chanref)
  : option (Msg * World) :=
  match chans w !! ch with
  | Some c =>
      match Chan.recv c with
      | (Chan.Value content, c') =>
          Some (streamEvent content,
                MkWorld (<[ch := c']> (chans w)) (goroutines w) (panicked w))
      | (Chan.Closed, _) => Some (streamCompleteMsg "" None, w)
      | (Chan.Empty, _) => Some (streamUpdateMsg "", w)
      end
  | None => None
  end.

(** ** The bubbletea runtime

    The program state: the current model, the store, the commands handed to
    the runtime that have not yet delivered their message, and whether the
    event loop has returned. *)
Record Sys := MkSys {
  ui : model;
  world : World;
  pending : list Cmd;
  exited : bool
}.

(** What can happen next: a key press, some message no case handles, a
    pending command completes and its message is handled, a goroutine runs
    one step. *)
Inductive Event :=
| EvKey (key : string)
| EvOther
| EvRun (i : nat)
| EvGo (i : nat).

(** The commands the runtime starts for a returned [tea.Cmd]: none for
    [nil], each member of a batch on its own. *)
Fixpoint started (c : Cmd) : list Cmd :=
  match c with
  | CmdNil => []
  | Batch c1 c2 => started c1 ++ started c2
  | _ => [c]
  end.

(** The event loop handles [msg]: [Update], then start the command. *)
Definition deliver (s : Sys) (msg : Msg) : Sys :=
  let '(w, m, c) := Update (world s) (ui s) msg in
  MkSys m w (pending s ++ started c) (exited s).

Definition step (s : Sys) (e : Event) : option Sys :=
  if exited s || panicked (world s) then None
  else
    match e with
    | EvKey key => Some (deliver s (KeyMsg key))
    | EvOther => Some (deliver s OtherMsg)
    | EvRun i =>
        match pending s !! i with
        | Some c =>
            let s' := MkSys (ui s) (world s) (delete i (pending s)) (exited s) in
            match c with
            | Quit => Some (MkSys (ui s') (world s') (pending s') true)
            | Return msg => Some (deliver s' msg)
            | Listen ch =>
                match listenForStreamUpdates (world s) ch with
                | Some (msg, w) =>
                    Some (deliver (MkSys (ui s') w (pending s') (exited s')) msg)
                | None => None
                end
            | CmdNil | Batch _ _ => None
            end
        | None => None
        end
    | EvGo i =>
        match goroutines (world s) !! i with
        | Some GDone | None => None
        | Some g =>
            let '(w, g') := startStreamingInBackground (world s) g in
            Some (MkSys (ui s)
                        (MkWorld (chans w) (<[i := g']> (goroutines w)) (panicked w))
                        (pending s) (exited s))
        end
    end.

(** A schedule is a list of events; [allowed] restricts which event may be
    taken in which state. *)
Fixpoint run_with (allowed : Sys -> Event -> bool) (s : Sys) (evs : list Event)
  : option Sys :=
  match evs with
  | [] => Some s
  | e :: evs =>
      if allowed s e then
        match step s e with
        | Some s' => run_with allowed s' evs
        | None => None
        end
      else None
  end.

Definition run : Sys -> list Event -> option Sys := run_with (fun _ _ => true).

(** The program as [main] starts it. *)
Definition start (apiKey modelEnv : string) : Sys :=
  MkSys (initialModel apiKey modelEnv) emptyWorld [] false.

(** [tea.Batch] runs its commands concurrently and does not order their
    messages.  The schedules in which no poll is run while a
    [streamStartMsg] is still pending (the two commands of the batch
    themselves in either order): *)
Definition is_streamStart (c : Cmd) : bool :=
  match c with Return streamStartMsg => true | _ => false end.

Definition is_poll (c : Cmd) : bool :=
  match c with Listen _ => true | _ => false end.

Definition poll_after_start (s : Sys) (e : Event) : bool :=
  match e with
  | EvRun i =>
      match pending s !! i with
      | Some c => negb (is_poll c && existsb is_streamStart (pending s))
      | None => true
      end
  | _ => true
  end.

End Program.

(** ** The non-streaming path

    The earlier [sendMessage], which asks for the whole completion at once
    and answers with a [msgResponse]; [Update] still has its case.  [New] is
    [Chat.Completions.New] on a non-nil client (given by its API key): an
    error, or the [Message.Content] of each of [resp.Choices].

    [sendMessage] is what running the returned closure gives: the message,
    or [None] when [m.client] is nil, where the call is a nil dereference
    and the panic ends the process. *)
Module NonStreaming.

Definition Completion : Type := string + list string.

Definition sendMessage
  (New : string -> list MessageParam -> string -> Completion) (m : model)
  : option Msg :=
  let messages := map toParam (messages m) in
  match client m with
  | None => None
  | Some key =>
      match New key messages (modelName m) with
      | inl e => Some (msgResponse "" (Some e))
      | inr [] => Some (msgResponse "" (Some "no response from OpenAI"))
      | inr (c :: _) => Some (msgResponse c None)
      end
  end.

End NonStreaming.

(** ** Vocabulary of the properties *)

(** The two quit bindings of the key switch. *)
Definition quitKey (key : string) : bool :=
  String.eqb key "ctrl+c" || String.eqb key "q".

(** The keys that reach the [default] branch of the key switch: every key
    that is not a quit binding, enter or backspace. *)
Definition literalKey (key : string) : bool :=
  negb (quitKey key || String.eqb key "enter" || String.eqb key "backspace").

(** The messages that end a turn. *)
Definition terminalMsg (msg : Msg) : bool :=
  match msg with
  | msgResponse _ _ | streamCompleteMsg _ _ => true
  | msgStreamChunk _ done kerr => match kerr with Some _ => true | None => done end
  | _ => false
  end.

(** The command that starts a request is the batch of [sendMessage]. *)
Definition startsRequest (c : Cmd) : bool :=
  match c with
  | Batch (Return streamStartMsg) (Return (streamStarted _ _ _)) => true
  | _ => false
  end.

(** The pending commands that belong to a request's relay: its
    [streamStarted] closure and its poll. *)
Definition relayWork (c : Cmd) : bool :=
  match c with
  | Return (streamStarted _ _ _) | Listen _ => true
  | _ => false
  end.

(** Handling a list of messages one after the other, commands dropped. *)
Fixpoint handle (Render : Renderer) (w : World) (m : model) (msgs : list Msg)
  : World * model :=
  match msgs with
  | [] => (w, m)
  | msg :: msgs =>
      let '(w, m, _) := Update Render w m msg in handle Render w m msgs
  end.

(** The invariant the session state is meant to satisfy. *)
Definition sessionInvariant (m : model) : Prop :=
  (streaming m = true -> loading m = true) /\
  (partialResp m <> "" -> streaming m = true).

(** The states of the running program, under any schedule. *)
Definition reachable (Render : Renderer) (NewStreaming : Gateway) (s : Sys) : Prop :=
  exists apiKey modelEnv evs,
    run Render NewStreaming (start apiKey modelEnv) evs = Some s.

(** The error view. *)
Definition errorView (Render : Renderer) (e : string) : string :=
  Render errorStyle ("Error: " +:+ e) +:+ nl +:+ nl
  +:+ Render helpStyle "Press q to quit.".

(** ** Concrete collaborators for the scenarios *)

(** A renderer that adds no styling. *)
Definition plainRender : Renderer := fun _ s => s.

(** A gateway that answers every request with the same stream. *)
Definition gatewayOf (s : Stream) : Gateway := fun _ _ _ => s.

(** A stream of single-choice chunks with the given deltas. *)
Definition deltas (l : list string) : list ChatCompletionChunk :=
  map (fun d => Chunk [d]) l.

(** Scenario 1 of the specification. *)
Definition helloGateway : Gateway :=
  gatewayOf (MkStream (deltas ["H"; "e"; "l"; "lo"]) None).

(** A provider that fails at once. *)
Definition rateLimited : Gateway :=
  gatewayOf (MkStream [] (Some "rate limited")).

(** A provider that completes without content. *)
Definition emptyGateway : Gateway := gatewayOf (MkStream [] None).

(** A provider whose answer starts with the marker of the done event. *)
Definition doneTextGateway : Gateway :=
  gatewayOf (MkStream (deltas ["DONE: the"; " task"; " is finished"]) None).

(** A provider that sends 101 one-letter deltas. *)
Definition burstGateway : Gateway :=
  gatewayOf (MkStream (deltas (repeat "a" 101)) None).

(** The user types ["hi"] and submits; the runtime then runs the two
    commands of the batch in the order given. *)
Definition submitHi : list Event := [EvKey "h"; EvKey "i"; EvKey "enter"].

(** The state without credential. *)
Definition fatal (modelEnv : string) : model := initialModel "" modelEnv.

(** The text made of [n] letters a: the [n]th snapshot of [burstGateway]. *)
Fixpoint letters (n : nat) : string :=
  match n with
  | 0 => ""
  | S n => String "a" (letters n)
  end.

(** After [submitHi], the runtime runs both commands of the batch and the
    goroutine then takes [n] steps while the event loop is busy
    elsewhere. *)
Definition producerRunsAhead (n : nat) : list Event :=
  (submitHi ++ [EvRun 0; EvRun 0] ++ repeat (EvGo 0) n)%list.

(** An element of the conduit that the consumer takes for a terminal
    event. *)
Definition looksTerminal (v : string) : bool :=
  HasPrefix v "DONE:" || HasPrefix v "ERROR:".

(** The model after a run of stream updates: each non-empty text replaces
    the partial text. *)
Definition afterUpdates (m : model) (ds : list string) : model :=
  fold_left (fun m d => if nonempty d then set_partialResp m d else m) ds m.

(** While a request is in flight the input buffer is empty: enter clears it
    when it sets the flag, and nothing is appended until the flag is
    cleared. *)
Definition inputEmptyWhileLoading (m : model) : Prop :=
  loading m = true -> input m = "".

(** The pending commands other than quit. *)
Definition active (c : Cmd) : bool :=
  match c with Quit => false | _ => true end.

Definition work (s : Sys) : list Cmd := List.filter active (pending s).

(** Where a turn stands, read off the model and the pending commands when
    no poll is run while a [streamStartMsg] is pending: no request;
    submitted, both commands of the batch pending; the start message
    handled first; the [streamStarted] handled first, the poll waiting
    behind the start message; polling the conduit. *)
Inductive phase (m : model) : list Cmd -> Prop :=
| Idle :
    loading m = false -> streaming m = false -> partialResp m = "" ->
    phase m []
| Submitted c l n :
    loading m = true -> streaming m = false -> partialResp m = "" ->
    phase m [Return streamStartMsg; Return (streamStarted c l n)]
| Announced c l n :
    loading m = true -> streaming m = true ->
    phase m [Return (streamStarted c l n)]
| Wired ch :
    loading m = true -> streaming m = false -> partialResp m = "" ->
    streamChan m = Some ch ->
    phase m [Return streamStartMsg; Listen ch]
| Polling ch :
    loading m = true -> streaming m = true -> streamChan m = Some ch ->
    phase m [Listen ch].

(** ** Vocabulary of the further properties *)

(** What [Update] appends to the viewport for a message of the
    transcript. *)
Definition renderMessage (Render : Renderer) (msg : chatMessage) : string :=
  (if String.eqb (role msg) "user" then Render userStyle "You: "
   else Render assistantStyle "LLM: ")
  +:+ content msg +:+ nl +:+ nl.

Fixpoint renderTranscript (Render : Renderer) (msgs : list chatMessage) : string :=
  match msgs with
  | [] => ""
  | msg :: msgs => renderMessage Render msg +:+ renderTranscript Render msgs
  end.

(** The delta the loop of the producer reads from a chunk:
    [chunk.Choices[0].Delta.Content], nothing when there is no choice. *)
Definition firstDelta (chunk : ChatCompletionChunk) : string :=
  match Choices chunk with
  | delta :: _ => delta
  | [] => ""
  end.

(** The deltas that pass the test of the loop. *)
Definition relayed (cs : list ChatCompletionChunk) : list string :=
  List.filter nonempty (map firstDelta cs).

(** The cumulative texts of a list of deltas, starting from [full]. *)
Fixpoint cumulative (full : string) (ds : list string) : list string :=
  match ds with
  | [] => []
  | d :: ds => (full +:+ d) :: cumulative (full +:+ d) ds
  end.

(** All deltas in one text. *)
Fixpoint joined (ds : list string) : string :=
  match ds with
  | [] => ""
  | d :: ds => d +:+ joined ds
  end.

(** The element the producer sends last. *)
Definition finalEvent (serr : option string) (fullResponse : string) : string :=
  match serr with
  | None => "DONE:" +:+ fullResponse
  | Some e => "ERROR:" +:+ e
  end.

(** The viewport is the rendering of the transcript, and every message is a
    user or an assistant message. *)
Definition viewportMirrors (Render : Renderer) (m : model) : Prop :=
  viewport m = renderTranscript Render (messages m) /\
  Forall (fun msg => role msg = "user" \/ role msg = "assistant") (messages m).

(** The channel a goroutine still has to send on or to close. *)
Definition chanOf (g : goroutine) : option chanref :=
  match g with
  | GStart ch _ _ _ | GLoop ch _ _ _ | GClose ch => Some ch
  | GDone => None
  end.

(** A goroutine that is about to call the gateway through a nil client. *)
Definition clientless (g : goroutine) : bool :=
  match g with GStart _ None _ _ => true | _ => false end.

(** A pending [streamStarted] that carries a nil client. *)
Definition nilRequest (c : Cmd) : bool :=
  match c with Return (streamStarted None _ _) => true | _ => false end.

(** The store of a program that was started with a credential: nothing has
    panicked; channels and goroutines were made in pairs; every channel has
    the capacity of the conduit and holds no more than that; every
    goroutine has a client and, until it is done, works on the channel made
    with it, which is still open. *)
Definition storeOk (w : World) : Prop :=
  panicked w = false /\
  length (chans w) = length (goroutines w) /\
  (forall j c, chans w !! j = Some c ->
     Chan.capacity c = streamChanCapacity /\
     length (Chan.buf c) <= Chan.capacity c) /\
  (forall i g, goroutines w !! i = Some g ->
     clientless g = false /\
     forall ch, chanOf g = Some ch ->
       ch = i /\ exists c, chans w !! i = Some c /\ Chan.closed c = false).

Definition sysOk (s : Sys) : Prop :=
  storeOk (world s) /\ client (ui s) <> None /\
  Forall (fun c => nilRequest c = false) (pending s).

(** The error of [initialModel] without credential. *)
Definition credentialError : string :=
  "OPENAI_API_KEY not found in environment or .env file".

(** The commands that can be pending in a program without client. *)
Definition fatalCmd (c : Cmd) : bool :=
  match c with
  | Quit | Return streamStartMsg | Return (streamStarted None _ _) | Listen _ => true
  | _ => false
  end.

(** The messages handled in a program without client. *)
Definition fatalMsg (msg : Msg) : bool :=
  match msg with
  | KeyMsg _ | OtherMsg | streamStartMsg | streamStarted None _ _
  | streamUpdateMsg _ | streamCompleteMsg _ None => true
  | _ => false
  end.

(** A program started without credential: the model has no client and
    shows the credential error, nothing was ever sent on a channel, and no
    goroutine got past its first step. *)
Definition fatalOk (s : Sys) : Prop :=
  client (ui s) = None /\ err (ui s) = Some credentialError /\
  Forall (fun c => fatalCmd c = true) (pending s) /\
  Forall (fun c => Chan.buf c = []) (chans (world s)) /\
  Forall (fun g => g = GDone \/ clientless g = true) (goroutines (world s)).

(** * Properties *)

(** ** Strings *)

Lemma substring_all (s : string) : String.substring 0 (String.length s) s = s.
Proof. induction s as [|c s IH]; simpl; [reflexivity | now rewrite IH]. Qed.

Lemma app_String (c : ascii) (s t : string) :
  String c s +:+ t = String c (s +:+ t).
Proof. reflexivity. Qed.

Lemma app_empty_l (t : string) : "" +:+ t = t.
Proof. reflexivity. Qed.

Lemma prefix_empty (s : string) : String.prefix "" s = true.
Proof. destruct s; reflexivity. Qed.

Lemma streamEvent_done (t : string) :
  streamEvent ("DONE:" +:+ t) = streamCompleteMsg t None.
Proof.
  unfold streamEvent, HasPrefix, string_from.
  rewrite !app_String, app_empty_l. simpl.
  rewrite prefix_empty, Nat.sub_0_r, substring_all. reflexivity.
Qed.

Lemma streamEvent_error (t : string) :
  streamEvent ("ERROR:" +:+ t) = streamCompleteMsg "" (Some t).
Proof.
  unfold streamEvent, HasPrefix, string_from.
  rewrite !app_String, app_empty_l. simpl.
  rewrite prefix_empty, Nat.sub_0_r, substring_all. reflexivity.
Qed.

(** ** Stream updates and the done event *)

Lemma afterUpdates_frame (m : model) (ds : list string) :
  let m' := afterUpdates m ds in
  messages m' = messages m /\ viewport m' = viewport m /\
  loading m' = loading m /\ streaming m' = streaming m /\
  err m' = err m /\ input m' = input m /\ streamChan m' = streamChan m.
Proof.
  revert m. induction ds as [|d ds IH]; intros m; simpl; [tauto|].
  specialize (IH (if nonempty d then set_partialResp m d else m)).
  unfold afterUpdates in *. simpl in IH.
  destruct (nonempty d); simpl in IH; exact IH.
Qed.

Lemma handle_updates (Render : Renderer) (w : World) (m : model)
      (ds : list string) (rest : list Msg) :
  handle Render w m (map streamUpdateMsg ds ++ rest)
  = handle Render w (afterUpdates m ds) rest.
Proof.
  revert m. induction ds as [|d ds IH]; intros m; simpl; [reflexivity|].
  destruct (nonempty d); simpl;
    destruct (streamChan m); simpl; apply IH.
Qed.

(** C1. After any run of stream updates with texts [ds] and a done event
    with text [final], exactly one assistant message has been appended, its
    content is [final] itself, the partial text is empty and the loading and
    streaming flags are cleared; a single update replaces the partial text
    by its text when that text is not empty. *)
Theorem done_appends_final_text (Render : Renderer) (w : World) (m : model)
        (ds : list string) (final : string) :
  let '(w', m') :=
    handle Render w m (map streamUpdateMsg ds ++ [streamCompleteMsg final None]) in
  w' = w /\
  messages m' = (messages m ++ [ChatMessage "assistant" final])%list /\
  last (messages m') = Some (ChatMessage "assistant" final) /\
  partialResp m' = "" /\ loading m' = false /\ streaming m' = false /\
  streamChan m' = None /\ err m' = err m /\
  forall d, partialResp (snd (handle Render w m [streamUpdateMsg d]))
            = if nonempty d then d else partialResp m.
Proof.
  rewrite handle_updates. simpl.
  destruct (afterUpdates_frame m ds) as (Hm & _ & _ & _ & He & _).
  repeat split; simpl; try assumption.
  - now rewrite Hm.
  - rewrite Hm. apply last_snoc.
  - intros d. destruct (nonempty d); simpl; destruct (streamChan m); reflexivity.
Qed.

(** ** The key switch *)

(** Case analysis on which branch of the key switch a key takes. *)
Ltac key_cases key :=
  unfold literalKey, quitKey in *;
  destruct (String.eqb key "ctrl+c"); simpl in *;
  [| destruct (String.eqb key "q"); simpl in *;
     [| destruct (String.eqb key "enter"); simpl in *;
        [| destruct (String.eqb key "backspace"); simpl in * ] ] ].

(** The quit keys leave the model alone in every state. *)
Lemma Update_quit (Render : Renderer) (w : World) (m : model) (key : string) :
  quitKey key = true -> Update Render w m (KeyMsg key) = (w, m, Quit).
Proof. intros H. unfold Update. unfold quitKey in H. now rewrite H. Qed.

(** The [default] branch appends the key when no request is in flight and
    ignores it otherwise. *)
Lemma Update_literal (Render : Renderer) (w : World) (m : model) (key : string) :
  literalKey key = true ->
  Update Render w m (KeyMsg key)
  = (w, if loading m then m else set_input m (input m +:+ key), CmdNil).
Proof.
  intros H. unfold Update. key_cases key; try discriminate.
  destruct (loading m); reflexivity.
Qed.

(** Backspace is not guarded by the loading flag. *)
Lemma Update_backspace (Render : Renderer) (w : World) (m : model) :
  Update Render w m (KeyMsg "backspace")
  = (w, if nonempty (input m) then set_input m (drop_last (input m)) else m,
     CmdNil).
Proof. unfold Update. simpl. destruct (input m); reflexivity. Qed.

(** Submitting. *)
Lemma Update_enter (Render : Renderer) (w : World) (m : model) :
  Update Render w m (KeyMsg "enter")
  = if nonempty (input m) && negb (loading m) then
      let m' :=
        set_loading
          (set_input
             (set_viewport
                (set_messages m (messages m ++ [ChatMessage "user" (input m)]))
                (viewport m +:+ Render userStyle "You: " +:+ input m
                 +:+ nl +:+ nl))
             "")
          true in
      (w, m', sendMessage m')
    else (w, m, CmdNil).
Proof. reflexivity. Qed.

(** ** Errors *)

(** C2. A terminal error event, in either of its two message forms, leaves
    the transcript as it is, clears the loading and streaming flags and the
    partial text, and stores the error; the conduit element that carries an
    error description [e] is decoded to that event. *)
Theorem terminal_error_keeps_transcript (Render : Renderer) (w : World)
        (m : model) (text e : string) (done : bool) :
  (let '(w', m', c) := Update Render w m (streamCompleteMsg text (Some e)) in
   w' = w /\ c = CmdNil /\ messages m' = messages m /\
   loading m' = false /\ streaming m' = false /\ partialResp m' = "" /\
   err m' = Some e /\ streamChan m' = None) /\
  (let '(w', m', c) := Update Render w m (msgStreamChunk text done (Some e)) in
   w' = w /\ c = CmdNil /\ messages m' = messages m /\
   loading m' = false /\ streaming m' = false /\ partialResp m' = "" /\
   err m' = Some e) /\
  streamEvent ("ERROR:" +:+ e) = streamCompleteMsg "" (Some e).
Proof.
  split; [|split]; [simpl; tauto | simpl; tauto | apply streamEvent_error].
Qed.



Lemma View_error (Render : Renderer) (m : model) (e : string) :
  err m = Some e -> View Render m = errorView Render e.
Proof. intros H. unfold View. now rewrite H. Qed.



(** ** The state without credential *)

(** The first key in the state [initialModel] returns when the
    credential is missing: a key event never touches the transcript, the
    flags, the partial text or the error field, starts no command other
    than quit (which only the two quit keys give), and leaves the view as it
    is; the input buffer is unchanged by the quit keys, enter and backspace,
    and a literal key is appended to it. *)
Theorem fatal_state_keys (Render : Renderer) (w : World) (modelEnv key : string) :
  let m := fatal modelEnv in
  let '(w', m', c) := Update Render w m (KeyMsg key) in
  w' = w /\ c = (if quitKey key then Quit else CmdNil) /\
  messages m' = [] /\ loading m' = false /\ streaming m' = false /\
  partialResp m' = "" /\ err m' = err m /\ streamChan m' = None /\
  View Render m' = View Render m /\
  input m' = (if literalKey key then key else "").
Proof.
  unfold fatal, initialModel, Update. simpl.
  key_cases key; repeat split; reflexivity.
Qed.

(** In that state the key ["a"] changes the input buffer, and enter then
    appends a user message and starts a request. *)
Lemma fatal_state_accepts_text :
  let '(w1, m1, c1) := Update plainRender emptyWorld (fatal "") (KeyMsg "a") in
  let '(w2, m2, c2) := Update plainRender w1 m1 (KeyMsg "enter") in
  quitKey "a" = false /\ input (fatal "") = "" /\ input m1 = "a" /\
  m1 <> fatal "" /\ err m1 <> None /\
  startsRequest c2 = true /\ loading m2 = true /\
  messages m2 = [ChatMessage "user" "a"].
Proof. simpl. repeat split; try reflexivity; discriminate. Qed.

(** C4, evaluated where it fails.  The program is started without
    credential, so the state is the one [initialModel] returns with the
    error set.  The key ["a"] is appended to the input buffer; enter then
    appends a user message, sets the loading flag and starts a request; the
    goroutine started for it calls the gateway through the nil client and
    panics.  All the while the view is the error view with its hint to
    press q. *)
Theorem fatal_state_request_panics :
  match run plainRender helloGateway (start "" "") [EvKey "a"] with
  | Some s =>
      input (ui (start "" "")) = "" /\ input (ui s) = "a" /\
      View plainRender (ui s) = View plainRender (ui (start "" ""))
  | None => False
  end /\
  match run plainRender helloGateway (start "" "")
            [EvKey "a"; EvKey "enter"] with
  | Some s =>
      messages (ui s) = [ChatMessage "user" "a"] /\ loading (ui s) = true /\
      pending s
      = [Return streamStartMsg; Return (streamStarted None [UserMessage "a"] "")]
  | None => False
  end /\
  match run plainRender helloGateway (start "" "")
            [EvKey "a"; EvKey "enter"; EvRun 0; EvRun 0; EvGo 0] with
  | Some s =>
      messages (ui s) = [ChatMessage "user" "a"] /\
      panicked (world s) = true /\
      View plainRender (ui s)
      = errorView plainRender
          "OPENAI_API_KEY not found in environment or .env file"
  | None => False
  end.
Proof. vm_compute. repeat split. Qed.

(** ** The input buffer while a request is in flight *)

(** Whatever holds of the model and is kept by [Update] holds in every
    state the program reaches. *)
Lemma step_ui_invariant (P : model -> Prop) (Render : Renderer)
      (NewStreaming : Gateway) :
  (forall w m msg, P m -> P (Update Render w m msg).1.2) ->
  forall s e s', P (ui s) -> step Render NewStreaming s e = Some s' -> P (ui s').
Proof.
  intros HP s e s' H Hstep. unfold step in Hstep.
  assert (forall s0 msg, P (ui s0) -> P (ui (deliver Render s0 msg))) as Hd.
  { intros s0 msg H0. unfold deliver.
    pose proof (HP (world s0) (ui s0) msg H0) as H1.
    destruct (Update Render (world s0) (ui s0) msg) as [[w' m'] c]. exact H1. }
  destruct (exited s || panicked (world s)); [discriminate|].
  destruct e as [key| |i|i].
  - injection Hstep as <-. now apply Hd.
  - injection Hstep as <-. now apply Hd.
  - destruct (pending s !! i) as [c|]; [|discriminate].
    destruct c as [| |msg|c1 c2|ch]; try discriminate.
    + injection Hstep as <-. exact H.
    + injection Hstep as <-. now apply Hd.
    + destruct (listenForStreamUpdates (world s) ch) as [[msg w]|];
        [|discriminate].
      injection Hstep as <-. now apply Hd.
  - destruct (goroutines (world s) !! i) as [g|]; [|discriminate].
    destruct g; try discriminate;
      match type of Hstep with
      | context [startStreamingInBackground ?G ?w ?g] =>
          destruct (startStreamingInBackground G w g) as [w' g']
      end; injection Hstep as <-; exact H.
Qed.

Lemma run_with_ui_invariant (P : model -> Prop) (Render : Renderer)
      (NewStreaming : Gateway) (allowed : Sys -> Event -> bool) :
  (forall w m msg, P m -> P (Update Render w m msg).1.2) ->
  forall evs s s',
    P (ui s) -> run_with Render NewStreaming allowed s evs = Some s' -> P (ui s').
Proof.
  intros HP. induction evs as [|e evs IH]; intros s s' H Hrun; simpl in Hrun.
  - now injection Hrun as <-.
  - destruct (allowed s e); [|discriminate].
    destruct (step Render NewStreaming s e) as [s1|] eqn:Hstep; [|discriminate].
    eapply IH; [|exact Hrun]. eapply step_ui_invariant; eauto.
Qed.

Lemma Update_inputEmptyWhileLoading (Render : Renderer) (w : World) (m : model)
      (msg : Msg) :
  inputEmptyWhileLoading m ->
  inputEmptyWhileLoading (Update Render w m msg).1.2.
Proof.
  unfold inputEmptyWhileLoading. intros H.
  destruct msg as [key|c e| |c l n|c|c e|c d e|]; simpl; try assumption.
  - key_cases key; try assumption.
    + destruct (nonempty (input m) && negb (loading m)); simpl; auto.
    + destruct (0 <? String.length (input m))%nat eqn:Hlen; simpl; auto.
      intros Hl. rewrite (H Hl) in Hlen. discriminate.
    + destruct (loading m) eqn:Hl; simpl; auto. rewrite Hl. discriminate.
  - destruct e; simpl; discriminate.
  - destruct (nonempty c); simpl; destruct (streamChan m); simpl; assumption.
  - destruct e; simpl; discriminate.
  - destruct e; simpl; [discriminate|]. destruct d; simpl; [discriminate|auto].
Qed.

Lemma reachable_inputEmptyWhileLoading (Render : Renderer)
      (NewStreaming : Gateway) (s : Sys) :
  reachable Render NewStreaming s -> inputEmptyWhileLoading (ui s).
Proof.
  intros (apiKey & modelEnv & evs & Hrun).
  eapply (run_with_ui_invariant inputEmptyWhileLoading); [| |exact Hrun].
  - intros w m msg. apply Update_inputEmptyWhileLoading.
  - unfold start, initialModel, inputEmptyWhileLoading. simpl.
    destruct (nonempty apiKey); simpl; discriminate.
Qed.

(** C7. In a state the program reaches with a request in flight, a literal
    key and backspace leave the input buffer as it is; in any state with no
    request in flight a literal key is appended to the input buffer.  (The
    letter q is a quit binding, not a literal key.) *)
Theorem composition_keys_while_loading (Render : Renderer)
        (NewStreaming : Gateway) :
  (forall s key,
     reachable Render NewStreaming s -> loading (ui s) = true ->
     literalKey key = true \/ key = "backspace" ->
     input (Update Render (world s) (ui s) (KeyMsg key)).1.2 = input (ui s)) /\
  (forall w m key,
     loading m = false -> literalKey key = true ->
     input (Update Render w m (KeyMsg key)).1.2 = input m +:+ key).
Proof.
  split.
  - intros s key Hr Hl [Hk | ->].
    + rewrite Update_literal by assumption. now rewrite Hl.
    + pose proof (reachable_inputEmptyWhileLoading _ _ _ Hr Hl) as Hi.
      rewrite Update_backspace, Hi. simpl. exact Hi.
  - intros w m key Hl Hk. rewrite Update_literal by assumption. now rewrite Hl.
Qed.

(** After ["hi"] is submitted a request is in flight: ["x"] and backspace
    change nothing; in the initial state ["x"] is appended. *)
Lemma composition_keys_while_loading_witness :
  match run plainRender helloGateway (start "key" "") submitHi with
  | Some s =>
      loading (ui s) = true /\
      input (Update plainRender (world s) (ui s) (KeyMsg "x")).1.2
      = input (ui s) /\
      input (Update plainRender (world s) (ui s) (KeyMsg "backspace")).1.2
      = input (ui s) /\
      input (Update plainRender emptyWorld (initialModel "key" "") (KeyMsg "x")).1.2
      = input (initialModel "key" "") +:+ "x"
  | None => False
  end.
Proof.
  destruct (run plainRender helloGateway (start "key" "") submitHi) as [s|] eqn:Hrun;
    [|vm_compute in Hrun; discriminate Hrun].
  assert (loading (ui s) = true) as Hl
      by (vm_compute in Hrun; injection Hrun as <-; reflexivity).
  assert (reachable plainRender helloGateway s) as Hr
      by (exists "key", "", submitHi; exact Hrun).
  destruct (composition_keys_while_loading plainRender helloGateway) as [H1 H2].
  split; [exact Hl|]. split; [|split].
  - apply H1; [exact Hr | exact Hl | left; reflexivity].
  - apply H1; [exact Hr | exact Hl | right; reflexivity].
  - apply H2; reflexivity.
Defined.

(** ** The conduit *)

Lemma World_eta (w : World) : MkWorld (chans w) (goroutines w) (panicked w) = w.
Proof. now destruct w. Qed.

(** A send on a full open channel takes the default branch. *)
Lemma try_send_full (c : Chan.t) (v : string) :
  Chan.closed c = false -> Chan.capacity c <= length (Chan.buf c) ->
  Chan.try_send c v = Some c.
Proof.
  intros Hc Hfull. unfold Chan.try_send. rewrite Hc.
  destruct (Nat.ltb_spec (length (Chan.buf c)) (Chan.capacity c)); [lia|].
  reflexivity.
Qed.

(** A send on an open channel with room appends the element. *)
Lemma try_send_room (c : Chan.t) (v : string) :
  Chan.closed c = false -> length (Chan.buf c) < Chan.capacity c ->
  Chan.try_send c v = Some (Chan.Make (Chan.buf c ++ [v]) (Chan.capacity c) false).
Proof.
  intros Hc Hroom. unfold Chan.try_send. rewrite Hc.
  destruct (Nat.ltb_spec (length (Chan.buf c)) (Chan.capacity c)); [|lia].
  reflexivity.
Qed.

Lemma send_nonblocking_full (w : World) (ch : chanref) (c : Chan.t) (v : string) :
  chans w !! ch = Some c ->
  Chan.closed c = false -> Chan.capacity c <= length (Chan.buf c) ->
  send_nonblocking w ch v = w.
Proof.
  intros Hch Hc Hfull. unfold send_nonblocking.
  rewrite Hch, (try_send_full c v Hc Hfull). cbv beta iota.
  rewrite (list_insert_id _ _ _ Hch). apply World_eta.
Qed.

(** C5, as the code has it.  A non-blocking send on a full conduit is
    skipped: the conduit keeps what it holds and the new element is the one
    discarded; the producer is not blocked and goes on to the next chunk
    with the text accumulated. *)
Theorem full_conduit_discards_new_snapshot (NewStreaming : Gateway)
        (w : World) (ch : chanref) (c : Chan.t)
        (delta : string) (ds : list string) (rest : list ChatCompletionChunk)
        (serr : option string) (fullResponse : string) :
  chans w !! ch = Some c ->
  Chan.closed c = false -> Chan.capacity c <= length (Chan.buf c) ->
  nonempty delta = true ->
  Chan.try_send c (fullResponse +:+ delta) = Some c /\
  startStreamingInBackground NewStreaming w
    (GLoop ch (Chunk (delta :: ds) :: rest) serr fullResponse)
  = (w, GLoop ch rest serr (fullResponse +:+ delta)).
Proof.
  intros Hch Hc Hfull Hd. split; [now apply try_send_full|].
  simpl. rewrite Hd. now rewrite (send_nonblocking_full w ch c).
Qed.

Lemma full_conduit_discards_new_snapshot_witness :
  let c := Chan.Make ["H"] 1 false in
  let w := MkWorld [c] [] false in
  Chan.try_send c ("H" +:+ "e") = Some c /\
  startStreamingInBackground helloGateway w
    (GLoop 0 [Chunk ["e"]; Chunk ["l"]] None "H")
  = (w, GLoop 0 [Chunk ["l"]] None ("H" +:+ "e")).
Proof.
  apply (full_conduit_discards_new_snapshot helloGateway
           (MkWorld [Chan.Make ["H"] 1 false] [] false) 0
           (Chan.Make ["H"] 1 false) "e" [] [Chunk ["l"]] None "H");
    [reflexivity | reflexivity | simpl; lia | reflexivity].
Defined.

(** The conduit of the program, filled by a burst of 100 snapshots: the
    101st send leaves the oldest snapshot at the head and is itself not
    stored. *)
Lemma full_conduit_keeps_oldest :
  match run plainRender burstGateway (start "key" "") (producerRunsAhead 101) with
  | Some s =>
      match step plainRender burstGateway s (EvGo 0) with
      | Some s' =>
          goroutines (world s) = [GLoop 0 [Chunk ["a"]] None (letters 100)] /\
          goroutines (world s') = [GLoop 0 [] None (letters 101)] /\
          chans (world s) = [Chan.Make (map letters (seq 1 100)) 100 false] /\
          chans (world s') = chans (world s) /\
          head (map letters (seq 1 100)) = Some (letters 1) /\
          existsb (String.eqb (letters 101)) (map letters (seq 1 100)) = false
      | None => False
      end
  | None => False
  end.
Proof. vm_compute. repeat split. Qed.

(** ** The terminal event *)

(** C3, evaluated where it fails.  The provider sends 101 deltas and the
    goroutine runs to its end before the event loop polls: the conduit then
    holds the first 100 snapshots and is closed, without any terminal
    event; the 101 polls that follow end with the event made up for a
    closed conduit, and the transcript gets an empty assistant message in
    place of the answer. *)
Theorem final_event_lost_when_conduit_full :
  match run plainRender burstGateway (start "key" "") (producerRunsAhead 104) with
  | Some s =>
      goroutines (world s) = [GDone] /\
      chans (world s) = [Chan.Make (map letters (seq 1 100)) 100 true] /\
      existsb looksTerminal (map letters (seq 1 100)) = false /\
      panicked (world s) = false /\
      match run plainRender burstGateway s (repeat (EvRun 0) 101) with
      | Some s' =>
          messages (ui s')
          = [ChatMessage "user" "hi"; ChatMessage "assistant" ""] /\
          loading (ui s') = false /\ err (ui s') = None /\ pending s' = []
      | None => False
      end
  | None => False
  end.
Proof. vm_compute. repeat split. Qed.

(** With room in the conduit the terminal event is the last element sent,
    and the close follows it. *)
Lemma final_event_sent_when_room (NewStreaming : Gateway) (w : World)
      (ch : chanref) (c : Chan.t) (serr : option string) (fullResponse : string) :
  chans w !! ch = Some c ->
  Chan.closed c = false -> length (Chan.buf c) < Chan.capacity c ->
  let final :=
    match serr with
    | None => "DONE:" +:+ fullResponse
    | Some e => "ERROR:" +:+ e
    end in
  let '(w1, g1) :=
    startStreamingInBackground NewStreaming w (GLoop ch [] serr fullResponse) in
  let '(w2, g2) := startStreamingInBackground NewStreaming w1 g1 in
  g1 = GClose ch /\ g2 = GDone /\ panicked w2 = panicked w /\
  chans w2 !! ch
  = Some (Chan.Make (Chan.buf c ++ [final]) (Chan.capacity c) true).
Proof.
  intros Hch Hc Hroom.
  assert (ch < length (chans w)) as Hlt by (eapply lookup_lt_Some; eauto).
  assert (forall v,
    send_nonblocking w ch v
    = MkWorld (<[ch := Chan.Make (Chan.buf c ++ [v]) (Chan.capacity c) false]>
                 (chans w)) (goroutines w) (panicked w)) as Hsend.
  { intros v. unfold send_nonblocking.
    now rewrite Hch, (try_send_room c v Hc Hroom). }
  destruct serr as [e|]; simpl; rewrite Hsend; unfold close_chan; simpl;
    rewrite list_lookup_insert_eq by assumption; simpl;
    rewrite list_insert_insert_eq, list_lookup_insert_eq by assumption;
    auto.
Qed.

(** ** Who closes the conduit *)

(** A receive does not change whether a channel is closed. *)
Lemma recv_keeps_closed (c : Chan.t) :
  Chan.closed (Chan.recv c).2 = Chan.closed c.
Proof.
  unfold Chan.recv. destruct (Chan.buf c); simpl; [|reflexivity].
  destruct (Chan.closed c) eqn:Hc; simpl; exact Hc.
Qed.

(** The consumer never closes a channel: after a poll every channel is
    closed exactly when it was before. *)
Lemma listen_never_closes (w w' : World) (ch : chanref) (msg : Msg) :
  listenForStreamUpdates w ch = Some (msg, w') ->
  map Chan.closed (chans w') = map Chan.closed (chans w) /\
  panicked w' = panicked w.
Proof.
  unfold listenForStreamUpdates. intros H.
  destruct (chans w !! ch) as [c|] eqn:Hch; [|discriminate].
  pose proof (recv_keeps_closed c) as Hc.
  destruct (Chan.recv c) as [[v| |] c']; injection H as _ <-; simpl in *;
    try (split; reflexivity).
  split; [|reflexivity].
  rewrite list_fmap_insert, Hc.
  apply list_insert_id. now rewrite list_lookup_fmap, Hch.
Qed.

(** [Update] leaves the channels it finds as they are; the [streamStarted]
    case adds a new, open one. *)
Lemma Update_keeps_chans (Render : Renderer) (w : World) (m : model) (msg : Msg) :
  let w' := (Update Render w m msg).1.1 in
  chans w' = chans w \/
  chans w' = (chans w ++ [Chan.make streamChanCapacity])%list.
Proof.
  destruct msg as [key|c e| |c l n|c|c e|c d e|]; simpl; auto.
  - key_cases key; auto.
    + destruct (nonempty (input m) && negb (loading m)); auto.
    + destruct (0 <? String.length (input m))%nat; auto.
    + destruct (loading m); auto.
  - destruct e; auto.
  - destruct (nonempty c); simpl; destruct (streamChan m); auto.
  - destruct e; auto. destruct d; auto.
Qed.

(** ** Completion without content *)

(** C6, evaluated where it fails.  The provider completes at once with no
    content: the done event carries the empty text, and the turn ends with
    an empty assistant message appended and no error. *)
Theorem empty_completion_appends_empty_message :
  match run plainRender emptyGateway (start "key" "")
            (producerRunsAhead 3 ++ [EvRun 0]) with
  | Some s =>
      chans (world s) = [Chan.Make [] 100 true] /\
      messages (ui s) = [ChatMessage "user" "hi"; ChatMessage "assistant" ""] /\
      err (ui s) = None /\ loading (ui s) = false /\ streaming (ui s) = false
  | None => False
  end.
Proof. vm_compute. repeat split. Qed.

(** What the conduit carried in that run. *)
Lemma empty_completion_sends_done :
  match run plainRender emptyGateway (start "key" "") (producerRunsAhead 2) with
  | Some s => chans (world s) = [Chan.Make ["DONE:"] 100 false]
  | None => False
  end.
Proof. vm_compute. reflexivity. Qed.

(** The non-streaming path does treat a completion without choices as an
    error: no message is appended and the error is stored. *)
Lemma NonStreaming_no_choices_is_error (Render : Renderer) (w : World)
      (m : model) (key : string)
      (New : string -> list MessageParam -> string -> NonStreaming.Completion) :
  client m = Some key ->
  New key (map toParam (messages m)) (modelName m) = inr [] ->
  NonStreaming.sendMessage New m
  = Some (msgResponse "" (Some "no response from OpenAI")) /\
  let '(w', m', c) :=
    Update Render w m (msgResponse "" (Some "no response from OpenAI")) in
  messages m' = messages m /\ loading m' = false /\
  err m' = Some "no response from OpenAI".
Proof.
  intros Hc H. unfold NonStreaming.sendMessage. rewrite Hc, H. simpl. auto.
Qed.

(** ** Ambiguity of the encoding *)

(** The poll after a send into an empty conduit with room returns the value
    sent. *)
Lemma listen_after_send (w : World) (ch : chanref) (c : Chan.t) (v : string) :
  chans w !! ch = Some c ->
  Chan.buf c = [] -> Chan.closed c = false -> 0 < Chan.capacity c ->
  listenForStreamUpdates (send_nonblocking w ch v) ch
  = Some (streamEvent v,
          MkWorld (<[ch := Chan.Make [] (Chan.capacity c) false]> (chans w))
                  (goroutines w) (panicked w)).
Proof.
  intros Hch Hb Hc Hcap.
  assert (ch < length (chans w)) as Hlt by (eapply lookup_lt_Some; eauto).
  unfold send_nonblocking.
  rewrite Hch, try_send_room by (rewrite ?Hb; simpl; assumption).
  unfold listenForStreamUpdates. simpl.
  rewrite list_lookup_insert_eq by assumption.
  rewrite Hb. simpl. now rewrite list_insert_insert_eq.
Qed.

(** C9. While the goroutine is still inside its loop, a snapshot that
    begins with the marker of the done event (of the error event) is handed
    to the consumer, whose poll returns a terminal event: [Update] then ends
    the turn, appending the rest of the snapshot as the assistant message
    (storing it as the error), and polls no more. *)
Theorem partial_snapshot_decoded_as_terminal (Render : Renderer)
        (NewStreaming : Gateway) (w : World) (m : model) (ch : chanref)
        (c : Chan.t) (delta : string) (ds : list string)
        (rest : list ChatCompletionChunk) (serr : option string)
        (fullResponse t : string) :
  chans w !! ch = Some c ->
  Chan.buf c = [] -> Chan.closed c = false -> 0 < Chan.capacity c ->
  nonempty delta = true ->
  let '(w1, g1) :=
    startStreamingInBackground NewStreaming w
      (GLoop ch (Chunk (delta :: ds) :: rest) serr fullResponse) in
  g1 = GLoop ch rest serr (fullResponse +:+ delta) /\
  (fullResponse +:+ delta = "DONE:" +:+ t ->
   exists w2,
     listenForStreamUpdates w1 ch = Some (streamCompleteMsg t None, w2) /\
     let '(_, m', cmd) := Update Render w2 m (streamCompleteMsg t None) in
     messages m' = (messages m ++ [ChatMessage "assistant" t])%list /\
     loading m' = false /\ streaming m' = false /\ streamChan m' = None /\
     cmd = CmdNil) /\
  (fullResponse +:+ delta = "ERROR:" +:+ t ->
   exists w2,
     listenForStreamUpdates w1 ch = Some (streamCompleteMsg "" (Some t), w2) /\
     let '(_, m', cmd) := Update Render w2 m (streamCompleteMsg "" (Some t)) in
     messages m' = messages m /\ err m' = Some t /\
     loading m' = false /\ streaming m' = false /\ streamChan m' = None /\
     cmd = CmdNil).
Proof.
  intros Hch Hb Hc Hcap Hd. simpl. rewrite Hd.
  split; [reflexivity|]. split; intros Heq; eexists;
    (split; [rewrite (listen_after_send w ch c) by assumption;
             rewrite Heq, ?streamEvent_done, ?streamEvent_error; reflexivity
            | simpl; auto 10]).
Qed.

Lemma partial_snapshot_decoded_as_terminal_witness :
  let w := MkWorld [Chan.make streamChanCapacity] [] false in
  let m := set_loading (initialModel "key" "") true in
  let '(w1, g1) :=
    startStreamingInBackground doneTextGateway w
      (GLoop 0 (deltas ["DONE: the"; " task"]) None "") in
  g1 = GLoop 0 (deltas [" task"]) None ("" +:+ "DONE: the") /\
  ("" +:+ "DONE: the" = "DONE:" +:+ " the" ->
   exists w2,
     listenForStreamUpdates w1 0 = Some (streamCompleteMsg " the" None, w2) /\
     let '(_, m', cmd) :=
       Update plainRender w2 m (streamCompleteMsg " the" None) in
     messages m' = (messages m ++ [ChatMessage "assistant" " the"])%list /\
     loading m' = false /\ streaming m' = false /\ streamChan m' = None /\
     cmd = CmdNil) /\
  ("" +:+ "DONE: the" = "ERROR:" +:+ " the" ->
   exists w2,
     listenForStreamUpdates w1 0
     = Some (streamCompleteMsg "" (Some " the"), w2) /\
     let '(_, m', cmd) :=
       Update plainRender w2 m (streamCompleteMsg "" (Some " the")) in
     messages m' = messages m /\ err m' = Some " the" /\
     loading m' = false /\ streaming m' = false /\ streamChan m' = None /\
     cmd = CmdNil).
Proof.
  apply (partial_snapshot_decoded_as_terminal plainRender doneTextGateway
           (MkWorld [Chan.make streamChanCapacity] [] false)
           (set_loading (initialModel "key" "") true) 0
           (Chan.make streamChanCapacity) "DONE: the" [] (deltas [" task"])
           None "" " the");
    [reflexivity | reflexivity | reflexivity
    | unfold streamChanCapacity; simpl; lia | reflexivity].
Defined.

(** The whole program on a provider whose answer begins with ["DONE:"]: the
    first poll ends the turn with the assistant message [" the"], while the
    goroutine still has two chunks to relay. *)
Lemma done_text_ends_turn_early :
  match run plainRender doneTextGateway (start "key" "")
            (producerRunsAhead 2 ++ [EvRun 0]) with
  | Some s =>
      messages (ui s) = [ChatMessage "user" "hi"; ChatMessage "assistant" " the"] /\
      loading (ui s) = false /\ pending s = [] /\
      goroutines (world s)
      = [GLoop 0 (deltas [" task"; " is finished"]) None "DONE: the"]
  | None => False
  end.
Proof. vm_compute. repeat split. Qed.

(** ** The session invariant *)

Lemma filter_active_delete_quit (l : list Cmd) (i : nat) (c : Cmd) :
  l !! i = Some c -> active c = false ->
  List.filter active (delete i l) = List.filter active l.
Proof.
  revert i. induction l as [|x l IH]; intros i Hi Hc; [discriminate|].
  destruct i as [|i]; simpl in *.
  - injection Hi as ->. now rewrite Hc.
  - rewrite (IH i Hi Hc). reflexivity.
Qed.

Lemma filter_active_delete (l : list Cmd) (i : nat) (c : Cmd) :
  l !! i = Some c -> active c = true ->
  exists l1 l2,
    List.filter active l = (l1 ++ c :: l2)%list /\
    List.filter active (delete i l) = (l1 ++ l2)%list.
Proof.
  revert i. induction l as [|x l IH]; intros i Hi Hc; [discriminate|].
  destruct i as [|i]; simpl in *.
  - injection Hi as ->. rewrite Hc. now exists [], (List.filter active l).
  - destruct (IH i Hi Hc) as (l1 & l2 & H1 & H2). rewrite H1, H2.
    destruct (active x); [exists (x :: l1), l2 | exists l1, l2]; auto.
Qed.

Lemma existsb_streamStart_work (l : list Cmd) :
  existsb is_streamStart l = existsb is_streamStart (List.filter active l).
Proof.
  induction l as [|x l IH]; simpl; [reflexivity|].
  destruct x as [| |msg|c1 c2|ch]; simpl; rewrite ?IH; reflexivity.
Qed.

Lemma filter_relayWork_work (l : list Cmd) :
  List.filter relayWork l = List.filter relayWork (List.filter active l).
Proof.
  induction l as [|x l IH]; simpl; [reflexivity|].
  destruct x as [| |msg|c1 c2|ch]; simpl; rewrite ?IH; reflexivity.
Qed.

(** The poll returns an update or a completion. *)
Lemma listen_result (w w' : World) (ch : chanref) (msg : Msg) :
  listenForStreamUpdates w ch = Some (msg, w') ->
  (exists text, msg = streamUpdateMsg text) \/
  (exists text e, msg = streamCompleteMsg text e).
Proof.
  unfold listenForStreamUpdates, streamEvent. intros H.
  destruct (chans w !! ch) as [c|]; [|discriminate].
  destruct (Chan.recv c) as [[v| |] c'].
  - destruct (HasPrefix v "DONE:"); [injection H as <- _; eauto|].
    destruct (HasPrefix v "ERROR:"); injection H as <- _; eauto.
  - injection H as <- _; eauto.
  - injection H as <- _; eauto.
Qed.

(** Keys and unhandled messages keep the phase, except that enter moves an
    idle session with some input to the submitted phase. *)
Lemma deliver_external_phase (Render : Renderer) (s : Sys) (msg : Msg) :
  (exists key, msg = KeyMsg key) \/ msg = OtherMsg ->
  phase (ui s) (work s) ->
  phase (ui (deliver Render s msg)) (work (deliver Render s msg)).
Proof.
  intros Hmsg Hph. unfold work, deliver in *.
  destruct Hmsg as [[key ->] | ->].
  - unfold Update. key_cases key.
    + rewrite List.filter_app, app_nil_r. exact Hph.
    + rewrite List.filter_app, app_nil_r. exact Hph.
    + destruct (nonempty (input (ui s)) && negb (loading (ui s))) eqn:Hgo;
        simpl; rewrite List.filter_app; simpl; [|now rewrite app_nil_r].
      apply andb_prop in Hgo as [_ Hl]. apply negb_true_iff in Hl.
      inversion Hph as [H1 H2 H3 H0 | | | |]; try congruence.
      simpl. now constructor.
    + destruct (0 <? String.length (input (ui s)))%nat; simpl;
        rewrite app_nil_r; inversion Hph; constructor; assumption.
    + destruct (loading (ui s)) eqn:Hl; simpl;
        rewrite app_nil_r; inversion Hph; constructor; assumption.
  - simpl. now rewrite app_nil_r.
Qed.

(** One step of the program keeps the phase, provided no poll is run while
    a [streamStartMsg] is pending. *)
Lemma step_phase (Render : Renderer) (NewStreaming : Gateway) (s s' : Sys)
      (e : Event) :
  phase (ui s) (work s) -> poll_after_start s e = true ->
  step Render NewStreaming s e = Some s' ->
  phase (ui s') (work s').
Proof.
  intros Hph Hsf Hstep. unfold step in Hstep.
  destruct (exited s || panicked (world s)); [discriminate|].
  destruct e as [key| |i|i].
  - injection Hstep as <-. apply deliver_external_phase; eauto.
  - injection Hstep as <-. apply deliver_external_phase; eauto.
  - simpl in Hsf.
    destruct (pending s !! i) as [c|] eqn:Hi; [|discriminate].
    destruct c as [| |msg|c1 c2|ch]; try discriminate.
    + (* quit *)
      injection Hstep as <-. unfold work in *. simpl.
      now rewrite (filter_active_delete_quit _ _ _ Hi eq_refl).
    + (* a closure that returns a message *)
      injection Hstep as <-.
      destruct (filter_active_delete _ _ _ Hi eq_refl) as (l1 & l2 & H1 & H2).
      unfold work, deliver in *. simpl. rewrite H1 in Hph.
      inversion Hph as [Ha Hb Hc Hw | c0 l0 n0 Ha Hb Hc Hw
                        | c0 l0 n0 Ha Hb Hw | ch Ha Hb Hc Hd Hw
                        | ch Ha Hb Hc Hw].
      * destruct l1; discriminate.
      * destruct l1 as [|x [|y l1]]; simpl in Hw; try discriminate.
        -- (* the start message first *)
           injection Hw as <- <-. simpl.
           rewrite List.filter_app, H2. simpl. now constructor.
        -- (* the stream started first *)
           injection Hw as <- <- <-. simpl.
           rewrite List.filter_app, H2. simpl. now constructor.
        -- injection Hw as _ _ Hw. destruct l1; discriminate.
      * destruct l1 as [|x l1]; simpl in Hw;
          [|injection Hw as _ Hw; destruct l1; discriminate].
        injection Hw as <- <-. simpl.
        rewrite List.filter_app, H2. simpl. now constructor.
      * destruct l1 as [|x [|y l1]]; simpl in Hw; try discriminate.
        -- injection Hw as <- <-. simpl.
           rewrite List.filter_app, H2. simpl. now constructor.
        -- injection Hw as _ _ Hw. destruct l1; discriminate.
      * destruct l1 as [|x l1]; simpl in Hw;
          [discriminate | injection Hw as _ Hw; destruct l1; discriminate].
    + (* the poll *)
      destruct (listenForStreamUpdates (world s) ch) as [[msg w]|] eqn:Hl;
        [|discriminate].
      injection Hstep as <-.
      destruct (filter_active_delete _ _ _ Hi eq_refl) as (l1 & l2 & H1 & H2).
      rewrite existsb_streamStart_work in Hsf.
      unfold work, deliver in *. simpl. rewrite H1 in Hph, Hsf.
      inversion Hph as [Ha Hb Hc Hw | c0 l0 n0 Ha Hb Hc Hw
                        | c0 l0 n0 Ha Hb Hw | ch0 Ha Hb Hc Hd Hw
                        | ch0 Ha Hb Hc Hw].
      * destruct l1; discriminate.
      * destruct l1 as [|x [|y l1]]; simpl in Hw; try discriminate.
        injection Hw as _ _ Hw. destruct l1; discriminate.
      * destruct l1 as [|x l1]; simpl in Hw;
          [discriminate | injection Hw as _ Hw; destruct l1; discriminate].
      * (* the poll behind a pending start message is not run *)
        destruct l1 as [|x [|y l1]]; simpl in Hw; try discriminate.
        -- injection Hw as <- _ _. simpl in Hsf. discriminate.
        -- injection Hw as _ _ Hw. destruct l1; discriminate.
      * destruct l1 as [|x l1]; simpl in Hw;
          [|injection Hw as _ Hw; destruct l1; discriminate].
        injection Hw as <- <-.
        destruct (listen_result _ _ _ _ Hl) as [[text ->] | (text & e0 & ->)].
        -- simpl. destruct (nonempty text); simpl; rewrite Hc; simpl;
             rewrite List.filter_app, H2; simpl; now constructor.
        -- simpl. rewrite app_nil_r, H2. simpl.
           destruct e0; now constructor.
  - destruct (goroutines (world s) !! i) as [g|]; [|discriminate].
    destruct g; try discriminate;
      match type of Hstep with
      | context [startStreamingInBackground ?G ?w ?g] =>
          destruct (startStreamingInBackground G w g) as [w' g']
      end; injection Hstep as <-; exact Hph.
Qed.

Lemma run_poll_after_start_phase (Render : Renderer) (NewStreaming : Gateway)
      (evs : list Event) :
  forall s s',
    phase (ui s) (work s) ->
    run_with Render NewStreaming poll_after_start s evs = Some s' ->
    phase (ui s') (work s').
Proof.
  induction evs as [|e evs IH]; intros s s' Hph Hrun; simpl in Hrun.
  - now injection Hrun as <-.
  - destruct (poll_after_start s e) eqn:Hsf; [|discriminate].
    destruct (step Render NewStreaming s e) as [s1|] eqn:Hstep; [|discriminate].
    eapply IH; [|exact Hrun]. eapply step_phase; eauto.
Qed.

Lemma start_phase (apiKey modelEnv : string) :
  phase (ui (start apiKey modelEnv)) (work (start apiKey modelEnv)).
Proof.
  unfold start, work, initialModel. simpl.
  destruct (nonempty apiKey); now constructor.
Qed.

Lemma phase_sessionInvariant (m : model) (wk : list Cmd) :
  phase m wk -> sessionInvariant m /\ length (List.filter relayWork wk) <= 1.
Proof.
  unfold sessionInvariant.
  intros [Ha Hb Hc | c l n Ha Hb Hc | c l n Ha Hb | ch Ha Hb Hc Hd
          | ch Ha Hb Hc]; simpl;
    repeat split; intros; try congruence; lia.
Qed.

(** A request is started only by the enter branch, from a state that is not
    loading, and the flag is set. *)
Lemma Update_startsRequest (Render : Renderer) (w : World) (m : model) (msg : Msg) :
  startsRequest (Update Render w m msg).2 = true ->
  loading m = false /\ loading (Update Render w m msg).1.2 = true.
Proof.
  destruct msg as [key|c e| |c l n|c|c e|c d e|]; simpl; try discriminate.
  - key_cases key; try discriminate.
    + destruct (nonempty (input m) && negb (loading m)) eqn:Hgo; simpl;
        [|discriminate].
      apply andb_prop in Hgo as [_ Hl]. apply negb_true_iff in Hl. auto.
    + destruct (0 <? String.length (input m))%nat; discriminate.
    + destruct (loading m); discriminate.
  - destruct e; discriminate.
  - destruct (nonempty c); simpl; destruct (streamChan m); discriminate.
  - destruct e; [discriminate|]. destruct d; discriminate.
Qed.

(** The loading flag stays set until a terminal message is handled. *)
Lemma Update_keeps_loading (Render : Renderer) (w : World) (m : model) (msg : Msg) :
  loading m = true -> terminalMsg msg = false ->
  loading (Update Render w m msg).1.2 = true.
Proof.
  intros Hl Ht.
  destruct msg as [key|c e| |c l n|c|c e|c d e|]; simpl in *;
    try discriminate; try assumption.
  - key_cases key; try assumption.
    + rewrite Hl, andb_false_r. assumption.
    + destruct (0 <? String.length (input m))%nat; assumption.
    + rewrite Hl. assumption.
  - destruct (nonempty c); simpl; destruct (streamChan m); assumption.
  - destruct e; [discriminate|]. subst d. assumption.
Qed.

(** The session invariant in the schedules in which no poll is run while
    a [streamStartMsg] is pending, the two commands of the batch in either
    order: streaming implies loading; the partial text is non-empty only
    while streaming; at most one relay command (a [streamStarted] closure
    or a poll) is pending; a request is started only from a state that is
    not loading, which sets the flag; and the flag stays set until a
    terminal message is handled. *)
Lemma session_invariant_poll_after_start (Render : Renderer)
      (NewStreaming : Gateway) (apiKey modelEnv : string)
      (evs : list Event) (s : Sys) :
  run_with Render NewStreaming poll_after_start (start apiKey modelEnv) evs
  = Some s ->
  sessionInvariant (ui s) /\
  length (List.filter relayWork (pending s)) <= 1 /\
  forall msg,
    (startsRequest (Update Render (world s) (ui s) msg).2 = true ->
     loading (ui s) = false /\
     loading (Update Render (world s) (ui s) msg).1.2 = true) /\
    (loading (ui s) = true -> terminalMsg msg = false ->
     loading (Update Render (world s) (ui s) msg).1.2 = true).
Proof.
  intros Hrun.
  pose proof (run_poll_after_start_phase _ _ _ _ _
                (start_phase apiKey modelEnv) Hrun) as Hph.
  apply phase_sessionInvariant in Hph as [Hinv Hone].
  split; [exact Hinv|]. split.
  - rewrite filter_relayWork_work. exact Hone.
  - intros msg. split;
      [apply Update_startsRequest | apply Update_keeps_loading].
Qed.

(** Scenario 1 of the specification under such schedules, stopped while the
    partial text is ["Hel"]: with the start message handled first, and with
    the [streamStarted] handled first. *)
Lemma session_invariant_poll_after_start_runs :
  (exists s,
     run_with plainRender helloGateway poll_after_start (start "key" "")
       (submitHi ++ [EvRun 0; EvRun 0] ++ repeat (EvGo 0) 4 ++ repeat (EvRun 0) 3)
     = Some s /\
     partialResp (ui s) = "Hel" /\ sessionInvariant (ui s)) /\
  (exists s,
     run_with plainRender helloGateway poll_after_start (start "key" "")
       (submitHi ++ [EvRun 1; EvRun 0] ++ repeat (EvGo 0) 4 ++ repeat (EvRun 0) 3)
     = Some s /\
     partialResp (ui s) = "Hel" /\ sessionInvariant (ui s)).
Proof.
  split;
    match goal with
    | |- exists s, ?r = Some s /\ _ =>
        destruct r as [s|] eqn:Hrun; [|vm_compute in Hrun; discriminate Hrun]
    end;
    exists s; (split; [reflexivity|]); (split;
      [ vm_compute in Hrun; injection Hrun as <-; reflexivity
      | exact (proj1 (session_invariant_poll_after_start plainRender
                        helloGateway "key" "" _ s Hrun)) ]).
Qed.

(** C8, evaluated where it fails.  [tea.Batch] does not order the messages
    of its commands.  When the [streamStarted] of the batch and the first
    poll are handled before the [streamStartMsg], the partial text is
    non-empty while the streaming flag is still false; when the
    [streamStartMsg] is handled after the done event, the streaming flag is
    set with the loading flag cleared, and stays so.  Both states are
    reached from the initial state by key events and relay messages, and
    the session invariant fails in both. *)
Theorem late_streamStart_breaks_invariant :
  match run plainRender helloGateway (start "key" "")
            (submitHi ++ [EvRun 1; EvGo 0; EvGo 0; EvRun 1]) with
  | Some s =>
      partialResp (ui s) = "H" /\ streaming (ui s) = false /\
      ~ sessionInvariant (ui s)
  | None => False
  end /\
  match run plainRender helloGateway (start "key" "")
            (submitHi ++ [EvRun 1] ++ repeat (EvGo 0) 7
             ++ repeat (EvRun 1) 5 ++ [EvRun 0]) with
  | Some s =>
      messages (ui s) = [ChatMessage "user" "hi"; ChatMessage "assistant" "Hello"] /\
      streaming (ui s) = true /\ loading (ui s) = false /\
      ~ sessionInvariant (ui s)
  | None => False
  end.
Proof.
  split; vm_compute; repeat split.
  - intros [_ H]. discriminate H. discriminate.
  - intros [H _]. discriminate H. reflexivity.
Qed.

(** Scenario 1 of the specification, with the batch handled in order. *)
Lemma scenario_hello :
  match run plainRender helloGateway (start "key" "")
            (submitHi ++ [EvRun 0; EvRun 0] ++ repeat (EvGo 0) 7
             ++ repeat (EvRun 0) 5) with
  | Some s =>
      messages (ui s) = [ChatMessage "user" "hi"; ChatMessage "assistant" "Hello"] /\
      partialResp (ui s) = "" /\ loading (ui s) = false /\ pending s = []
  | None => False
  end.
Proof. vm_compute. repeat split. Qed.

(** Scenario 2 of the specification. *)
Lemma scenario_rate_limited :
  match run plainRender rateLimited (start "key" "")
            (submitHi ++ [EvRun 0; EvRun 0] ++ repeat (EvGo 0) 3 ++ [EvRun 0]) with
  | Some s =>
      messages (ui s) = [ChatMessage "user" "hi"] /\
      err (ui s) = Some "rate limited" /\ loading (ui s) = false /\
      View plainRender (ui s) = errorView plainRender "rate limited"
  | None => False
  end.
Proof. vm_compute. repeat split. Qed.

(** After a failed request the error view stays, yet ["x"] and enter start
    another request. *)
Lemma error_state_starts_request :
  match run plainRender rateLimited (start "key" "")
            (submitHi ++ [EvRun 0; EvRun 0] ++ repeat (EvGo 0) 3
             ++ [EvRun 0; EvKey "x"; EvKey "enter"]) with
  | Some s =>
      err (ui s) = Some "rate limited" /\ loading (ui s) = true /\
      messages (ui s) = [ChatMessage "user" "hi"; ChatMessage "user" "x"] /\
      View plainRender (ui s) = errorView plainRender "rate limited" /\
      List.length (pending s) = 2
  | None => False
  end.
Proof. vm_compute. repeat split. Qed.

(** The loading flag does not count goroutines: after the early end of a
    turn on [doneTextGateway] a second request is started while the
    goroutine of the first is still relaying. *)
Lemma second_request_while_first_relays :
  match run_with plainRender doneTextGateway poll_after_start (start "key" "")
            (producerRunsAhead 2
             ++ [EvRun 0; EvKey "x"; EvKey "enter"; EvRun 0; EvRun 0]) with
  | Some s =>
      goroutines (world s)
      = [GLoop 0 (deltas [" task"; " is finished"]) None "DONE: the";
         GStart 1 (Some "key")
                [UserMessage "hi"; AssistantMessage " the"; UserMessage "x"]
                "gpt-4o"] /\
      loading (ui s) = true /\ pending s = [Listen 1]
  | None => False
  end.
Proof. vm_compute. repeat split. Qed.

(** * Further properties *)

(** ** Strings, continued *)

Lemma string_app_assoc (a b c : string) : (a +:+ b) +:+ c = a +:+ (b +:+ c).
Proof. induction a as [|x a IH]; [reflexivity|]. rewrite !app_String. now rewrite IH. Qed.

Lemma string_app_nil_r (a : string) : a +:+ "" = a.
Proof. induction a as [|x a IH]; [reflexivity|]. rewrite app_String. now rewrite IH. Qed.

Lemma string_length_app (a b : string) :
  String.length (a +:+ b) = String.length a + String.length b.
Proof. induction a as [|x a IH]; [reflexivity|]. rewrite app_String. simpl. now rewrite IH. Qed.

Lemma substring_0_app (a b : string) :
  String.substring 0 (String.length a) (a +:+ b) = a.
Proof.
  induction a as [|x a IH]; simpl.
  - destruct ("" +:+ b); reflexivity.
  - rewrite ?app_String. simpl. now rewrite IH.
Qed.

Lemma drop_last_app_char (s : string) (c : ascii) :
  drop_last (s +:+ String c "") = s.
Proof.
  unfold drop_last. rewrite string_length_app. simpl.
  replace (String.length s + 1 - 1) with (String.length s) by lia.
  apply substring_0_app.
Qed.

Lemma nonempty_app_char (s : string) (c : ascii) :
  nonempty (s +:+ String c "") = true.
Proof. destruct s; reflexivity. Qed.

Lemma prefix_app (p v r : string) :
  String.prefix p v = true -> String.prefix p (v +:+ r) = true.
Proof.
  revert v. induction p as [|x p IH]; intros v H.
  - apply prefix_empty.
  - destruct v as [|y v]; simpl in H; [discriminate|].
    rewrite app_String. simpl.
    destruct (ascii_dec x y); [now apply IH | discriminate].
Qed.

Lemma model_eta (m : model) :
  Model (client m) (modelName m) (messages m) (input m) (viewport m)
        (loading m) (streaming m) (partialResp m) (err m) (streamChan m) = m.
Proof. now destruct m. Qed.

(** ** Submitting *)

(** X1. Of all messages only enter, with some input and no request in
    flight, makes [Update] return the command that starts a request. *)
Theorem request_started_only_by_enter (Render : Renderer) (w : World)
        (m : model) (msg : Msg) :
  startsRequest (Update Render w m msg).2 = true <->
  msg = KeyMsg "enter" /\ nonempty (input m) = true /\ loading m = false.
Proof.
  split.
  - destruct msg as [key|c e| |c l n|c|c e|c d e|]; simpl; try discriminate.
    + destruct (String.eqb_spec key "ctrl+c"); simpl; [discriminate|].
      destruct (String.eqb_spec key "q"); simpl; [discriminate|].
      destruct (String.eqb_spec key "enter") as [->|]; simpl.
      * destruct (nonempty (input m)); simpl; [|discriminate].
        destruct (loading m); simpl; [discriminate|auto].
      * destruct (key =? "backspace")%string.
        -- destruct (0 <? String.length (input m))%nat; discriminate.
        -- destruct (loading m); discriminate.
    + destruct e; discriminate.
    + destruct (nonempty c); simpl; destruct (streamChan m); discriminate.
    + destruct e; [discriminate|]. destruct d; discriminate.
  - intros (-> & Hi & Hl). rewrite Update_enter, Hi, Hl. reflexivity.
Qed.

(** X2. Enter with some input and no request in flight appends the input
    as a user message, clears the input, sets the loading flag, and returns
    the batch whose request carries the whole transcript in order, the new
    user message last; client, model name, error, streaming flag and
    partial text stay as they are. *)
Theorem submit_sends_whole_transcript (Render : Renderer) (w : World) (m : model) :
  nonempty (input m) = true -> loading m = false ->
  let '(w', m', c) := Update Render w m (KeyMsg "enter") in
  w' = w /\
  messages m' = (messages m ++ [ChatMessage "user" (input m)])%list /\
  input m' = "" /\ loading m' = true /\
  viewport m'
  = viewport m +:+ renderMessage Render (ChatMessage "user" (input m)) /\
  (client m', modelName m', err m', streaming m', partialResp m', streamChan m')
  = (client m, modelName m, err m, streaming m, partialResp m, streamChan m) /\
  c = Batch (Return streamStartMsg)
            (Return (streamStarted (client m)
                       (map toParam (messages m) ++ [UserMessage (input m)])
                       (modelName m))).
Proof.
  intros Hi Hl. rewrite Update_enter, Hi, Hl. simpl.
  repeat split. unfold sendMessage, streamResponse. simpl.
  now rewrite map_app.
Qed.

Lemma submit_sends_whole_transcript_witness :
  let m := set_input (set_messages (initialModel "key" "")
                        [ChatMessage "user" "hi"; ChatMessage "assistant" "Hello"])
                     "more" in
  let '(w', m', c) := Update plainRender emptyWorld m (KeyMsg "enter") in
  w' = emptyWorld /\
  messages m' = (messages m ++ [ChatMessage "user" (input m)])%list /\
  input m' = "" /\ loading m' = true /\
  viewport m'
  = viewport m +:+ renderMessage plainRender (ChatMessage "user" (input m)) /\
  (client m', modelName m', err m', streaming m', partialResp m', streamChan m')
  = (client m, modelName m, err m, streaming m, partialResp m, streamChan m) /\
  c = Batch (Return streamStartMsg)
            (Return (streamStarted (client m)
                       (map toParam (messages m) ++ [UserMessage (input m)])
                       (modelName m))).
Proof.
  exact (submit_sends_whole_transcript plainRender emptyWorld
           (set_input (set_messages (initialModel "key" "")
                         [ChatMessage "user" "hi"; ChatMessage "assistant" "Hello"])
                      "more") eq_refl eq_refl).
Defined.

(** ** Editing *)

(** X3. Backspace removes the last byte of the input buffer and nothing
    else, whether or not a request is in flight. *)
Theorem backspace_removes_last_byte (Render : Renderer) (w : World) (m : model)
        (s : string) (c : ascii) :
  input m = s +:+ String c "" ->
  Update Render w m (KeyMsg "backspace") = (w, set_input m s, CmdNil).
Proof.
  intros H. rewrite Update_backspace, H, drop_last_app_char.
  destruct s; reflexivity.
Qed.

Lemma backspace_removes_last_byte_witness :
  Update plainRender emptyWorld (set_input (initialModel "key" "") "hi")
         (KeyMsg "backspace")
  = (emptyWorld, set_input (set_input (initialModel "key" "") "hi") "h", CmdNil).
Proof.
  exact (backspace_removes_last_byte plainRender emptyWorld
           (set_input (initialModel "key" "") "hi") "h" "i"%char eq_refl).
Defined.

(** X4. With no request in flight, a literal key of one byte followed by
    backspace gives back the model as it was. *)
Theorem type_then_backspace (Render : Renderer) (w : World) (m : model) (c : ascii) :
  literalKey (String c "") = true -> loading m = false ->
  handle Render w m [KeyMsg (String c ""); KeyMsg "backspace"] = (w, m).
Proof.
  intros Hk Hl. unfold handle.
  rewrite Update_literal by assumption. rewrite Hl.
  rewrite Update_backspace. simpl.
  rewrite nonempty_app_char, drop_last_app_char.
  unfold set_input. simpl. now rewrite model_eta.
Qed.

Lemma type_then_backspace_witness :
  handle plainRender emptyWorld (set_input (initialModel "key" "") "h")
         [KeyMsg "i"; KeyMsg "backspace"]
  = (emptyWorld, set_input (initialModel "key" "") "h").
Proof.
  exact (type_then_backspace plainRender emptyWorld
           (set_input (initialModel "key" "") "h") "i"%char eq_refl eq_refl).
Defined.

(** ** Quitting *)

(** X5. In every state of the running program, whatever is in flight, a
    quit key followed by the run of the quit command it returns ends the
    event loop with model, store and pending commands untouched; nothing
    happens after that. *)
Theorem quit_ends_the_program (Render : Renderer) (NewStreaming : Gateway)
        (s : Sys) (key : string) :
  quitKey key = true -> exited s = false -> panicked (world s) = false ->
  run Render NewStreaming s [EvKey key; EvRun (length (pending s))]
  = Some (MkSys (ui s) (world s) (pending s) true) /\
  forall e,
    step Render NewStreaming (MkSys (ui s) (world s) (pending s) true) e = None.
Proof.
  intros Hk He Hp. split; [|reflexivity].
  unfold run. simpl. unfold step at 1. rewrite He, Hp. simpl.
  unfold deliver. rewrite (Update_quit Render _ _ _ Hk). simpl.
  unfold step. simpl. rewrite He, Hp. simpl.
  rewrite (list_lookup_middle (pending s) [] Quit _ eq_refl).
  now rewrite (delete_middle (pending s) [] Quit), app_nil_r.
Qed.

Lemma quit_ends_the_program_witness :
  match run plainRender helloGateway (start "key" "") (producerRunsAhead 2) with
  | Some s =>
      loading (ui s) = true /\
      run plainRender helloGateway s [EvKey "q"; EvRun (length (pending s))]
      = Some (MkSys (ui s) (world s) (pending s) true) /\
      forall e,
        step plainRender helloGateway (MkSys (ui s) (world s) (pending s) true) e
        = None
  | None => False
  end.
Proof.
  destruct (run plainRender helloGateway (start "key" "") (producerRunsAhead 2))
    as [s|] eqn:Hrun; [|vm_compute in Hrun; discriminate Hrun].
  split; [vm_compute in Hrun; injection Hrun as <-; reflexivity|].
  apply (quit_ends_the_program plainRender helloGateway s "q" eq_refl);
    vm_compute in Hrun; injection Hrun as <-; reflexivity.
Defined.

(** ** Polling *)

(** X6. A poll that finds the conduit open and empty gives up after its
    timeout: the model and the store are left as they are and the same poll
    is issued again. *)
Theorem poll_timeout_changes_nothing (Render : Renderer) (NewStreaming : Gateway)
        (s : Sys) (i : nat) (ch : chanref) (c : Chan.t) :
  exited s = false -> panicked (world s) = false ->
  pending s !! i = Some (Listen ch) ->
  chans (world s) !! ch = Some c -> Chan.buf c = [] -> Chan.closed c = false ->
  streamChan (ui s) = Some ch ->
  step Render NewStreaming s (EvRun i)
  = Some (MkSys (ui s) (world s) (delete i (pending s) ++ [Listen ch]) false).
Proof.
  intros He Hp Hi Hch Hb Hc Hs.
  unfold step. rewrite He, Hp, Hi. simpl.
  unfold listenForStreamUpdates, Chan.recv. rewrite Hch, Hb, Hc.
  unfold deliver. simpl. rewrite Hs. reflexivity.
Qed.

Lemma poll_timeout_changes_nothing_witness :
  let s := MkSys (set_streamChan (set_loading (initialModel "key" "") true) (Some 0))
                 (MkWorld [Chan.make streamChanCapacity] [GDone] false)
                 [Listen 0] false in
  step plainRender helloGateway s (EvRun 0) = Some s.
Proof.
  exact (poll_timeout_changes_nothing plainRender helloGateway
           (MkSys (set_streamChan (set_loading (initialModel "key" "") true) (Some 0))
                  (MkWorld [Chan.make streamChanCapacity] [GDone] false)
                  [Listen 0] false)
           0 0 (Chan.make streamChanCapacity)
           eq_refl eq_refl eq_refl eq_refl eq_refl eq_refl eq_refl).
Defined.

(** X7. A poll that finds the conduit closed with nothing left to read ends
    the turn as a completion with empty content: an assistant message with
    empty content is appended, the flags, the partial text and the channel
    field are cleared, no error is stored and no further poll is issued. *)
Theorem poll_on_closed_conduit_ends_turn (Render : Renderer)
        (NewStreaming : Gateway) (s : Sys) (i : nat) (ch : chanref) (c : Chan.t) :
  exited s = false -> panicked (world s) = false ->
  pending s !! i = Some (Listen ch) ->
  chans (world s) !! ch = Some c -> Chan.buf c = [] -> Chan.closed c = true ->
  exists s',
    step Render NewStreaming s (EvRun i) = Some s' /\
    messages (ui s') = (messages (ui s) ++ [ChatMessage "assistant" ""])%list /\
    loading (ui s') = false /\ streaming (ui s') = false /\
    partialResp (ui s') = "" /\ streamChan (ui s') = None /\
    err (ui s') = err (ui s) /\
    world s' = world s /\ pending s' = delete i (pending s).
Proof.
  intros He Hp Hi Hch Hb Hc.
  unfold step. rewrite He, Hp, Hi. simpl.
  unfold listenForStreamUpdates, Chan.recv. rewrite Hch, Hb, Hc.
  unfold deliver. simpl. eexists. split; [reflexivity|]. simpl.
  rewrite app_nil_r. auto 10.
Qed.

Lemma poll_on_closed_conduit_ends_turn_witness :
  let s := MkSys (set_streamChan (set_loading (initialModel "key" "") true) (Some 0))
                 (MkWorld [Chan.Make [] 100 true] [GDone] false)
                 [Listen 0] false in
  exists s',
    step plainRender helloGateway s (EvRun 0) = Some s' /\
    messages (ui s') = (messages (ui s) ++ [ChatMessage "assistant" ""])%list /\
    loading (ui s') = false /\ streaming (ui s') = false /\
    partialResp (ui s') = "" /\ streamChan (ui s') = None /\
    err (ui s') = err (ui s) /\
    world s' = world s /\ pending s' = delete 0 (pending s).
Proof.
  exact (poll_on_closed_conduit_ends_turn plainRender helloGateway
           (MkSys (set_streamChan (set_loading (initialModel "key" "") true) (Some 0))
                  (MkWorld [Chan.Make [] 100 true] [GDone] false)
                  [Listen 0] false)
           0 0 (Chan.Make [] 100 true)
           eq_refl eq_refl eq_refl eq_refl eq_refl eq_refl).
Defined.

(** ** The non-streaming path, continued *)

(** X8. The closure of the non-streaming [sendMessage] panics on a nil
    client.  With a client it returns a message, and handling that message
    always clears the loading flag; a failed call or a completion without
    choices stores an error and leaves the transcript alone; otherwise the
    content of the first choice, and of no other, is appended as one
    assistant message and the error field is not touched. *)
Theorem NonStreaming_response_handling (Render : Renderer) (w : World) (m : model)
        (New : string -> list MessageParam -> string -> NonStreaming.Completion) :
  (client m = None -> NonStreaming.sendMessage New m = None) /\
  forall key,
    client m = Some key ->
    exists msg,
      NonStreaming.sendMessage New m = Some msg /\
      let '(w', m', c) := Update Render w m msg in
      w' = w /\ c = CmdNil /\ loading m' = false /\
      match New key (map toParam (messages m)) (modelName m) with
      | inl e => messages m' = messages m /\ err m' = Some e
      | inr [] =>
          messages m' = messages m /\ err m' = Some "no response from OpenAI"
      | inr (first :: _) =>
          messages m' = (messages m ++ [ChatMessage "assistant" first])%list /\
          viewport m'
          = viewport m +:+ renderMessage Render (ChatMessage "assistant" first) /\
          err m' = err m
      end.
Proof.
  unfold NonStreaming.sendMessage. split.
  - intros Hc. now rewrite Hc.
  - intros key Hc. rewrite Hc.
    destruct (New key (map toParam (messages m)) (modelName m))
      as [e|[|first rest]]; eexists; (split; [reflexivity|]); simpl; auto 10.
Qed.

(** A provider that answers every non-streaming call with two choices. *)
Lemma NonStreaming_response_handling_witness :
  let New := fun (_ : string) (_ : list MessageParam) (_ : string) =>
               inr ["Hello"; "Hi"] : NonStreaming.Completion in
  let m := set_loading (set_messages (initialModel "key" "")
                                     [ChatMessage "user" "hi"]) true in
  NonStreaming.sendMessage New (fatal "") = None /\
  exists msg,
    NonStreaming.sendMessage New m = Some msg /\
    let '(w', m', c) := Update plainRender emptyWorld m msg in
    w' = emptyWorld /\ c = CmdNil /\ loading m' = false /\
    messages m' = (messages m ++ [ChatMessage "assistant" "Hello"])%list /\
    viewport m'
    = viewport m +:+ renderMessage plainRender (ChatMessage "assistant" "Hello") /\
    err m' = err m.
Proof.
  intros New m. split.
  - exact (proj1 (NonStreaming_response_handling plainRender emptyWorld
                    (fatal "") New) eq_refl).
  - exact (proj2 (NonStreaming_response_handling plainRender emptyWorld m New)
             "key" eq_refl).
Defined.

(** ** What a run keeps *)

Lemma Update_only_appends (Render : Renderer) (w : World) (m : model) (msg : Msg) :
  let m' := (Update Render w m msg).1.2 in
  (messages m' = messages m \/
   exists x, messages m' = (messages m ++ [x])%list) /\
  client m' = client m /\ modelName m' = modelName m.
Proof.
  destruct msg as [key|c e| |c l n|c|c e|c d e|]; simpl; auto.
  - key_cases key; auto.
    + destruct (nonempty (input m) && negb (loading m)); simpl; eauto.
    + destruct (0 <? String.length (input m))%nat; simpl; auto.
    + destruct (loading m); simpl; auto.
  - destruct e; simpl; eauto.
  - destruct (nonempty c); simpl; destruct (streamChan m); simpl; auto.
  - destruct e; simpl; eauto.
  - destruct e; simpl; auto. destruct d; simpl; eauto.
Qed.

(** X9. Along every run of the program the transcript only grows at its
    end, and the client and the model name read at startup never change. *)
Theorem run_only_appends (Render : Renderer) (NewStreaming : Gateway)
        (s s' : Sys) (evs : list Event) :
  run Render NewStreaming s evs = Some s' ->
  (exists more, messages (ui s') = (messages (ui s) ++ more)%list) /\
  client (ui s') = client (ui s) /\ modelName (ui s') = modelName (ui s).
Proof.
  intros Hrun.
  apply (run_with_ui_invariant
           (fun m => (exists more, messages m = (messages (ui s) ++ more)%list) /\
                     client m = client (ui s) /\ modelName m = modelName (ui s))
           Render NewStreaming (fun _ _ => true))
    with (evs := evs) (s := s); [| |exact Hrun].
  - intros w m msg ((more & Hm) & Hc & Hn).
    destruct (Update_only_appends Render w m msg) as ([H | (x & H)] & Hc' & Hn').
    + split; [exists more; congruence | split; congruence].
    + split; [|split; congruence].
      exists (more ++ [x])%list. rewrite H, Hm. now rewrite <- app_assoc.
  - split; [exists []; now rewrite app_nil_r | auto].
Qed.

Lemma run_only_appends_witness :
  exists s',
    run plainRender helloGateway (start "key" "")
        (producerRunsAhead 7 ++ repeat (EvRun 0) 5) = Some s' /\
    (exists more,
       messages (ui s') = (messages (ui (start "key" "")) ++ more)%list) /\
    client (ui s') = client (ui (start "key" "")) /\
    modelName (ui s') = modelName (ui (start "key" "")).
Proof.
  destruct (run plainRender helloGateway (start "key" "")
              (producerRunsAhead 7 ++ repeat (EvRun 0) 5)) as [s'|] eqn:Hrun;
    [|vm_compute in Hrun; discriminate Hrun].
  exists s'. split; [reflexivity|].
  exact (run_only_appends plainRender helloGateway (start "key" "") s' _ Hrun).
Defined.

(** ** The viewport *)

Lemma renderTranscript_snoc (Render : Renderer) (msgs : list chatMessage)
      (msg : chatMessage) :
  renderTranscript Render (msgs ++ [msg])
  = renderTranscript Render msgs +:+ renderMessage Render msg.
Proof.
  induction msgs as [|x msgs IH]; simpl.
  - now rewrite string_app_nil_r.
  - now rewrite IH, string_app_assoc.
Qed.

Lemma Update_viewportMirrors (Render : Renderer) (w : World) (m : model) (msg : Msg) :
  viewportMirrors Render m -> viewportMirrors Render (Update Render w m msg).1.2.
Proof.
  unfold viewportMirrors. intros [Hv Hr].
  assert (forall r text,
            r = "user" \/ r = "assistant" ->
            viewport m +:+ renderMessage Render (ChatMessage r text)
            = renderTranscript Render (messages m ++ [ChatMessage r text]) /\
            Forall (fun msg => role msg = "user" \/ role msg = "assistant")
                   (messages m ++ [ChatMessage r text])) as Happ.
  { intros r text Hrole. rewrite renderTranscript_snoc, Hv. split; [reflexivity|].
    apply Forall_app. split; [assumption|].
    constructor; [exact Hrole | constructor]. }
  destruct msg as [key|c e| |c l n|c|c e|c d e|]; simpl; auto.
  - key_cases key; auto.
    + destruct (nonempty (input m) && negb (loading m)); simpl; auto.
      apply (Happ "user"). now left.
    + destruct (0 <? String.length (input m))%nat; simpl; auto.
    + destruct (loading m); simpl; auto.
  - destruct e; simpl; auto. apply (Happ "assistant"). now right.
  - destruct (nonempty c); simpl; destruct (streamChan m); simpl; auto.
  - destruct e; simpl; auto. apply (Happ "assistant"). now right.
  - destruct e; simpl; auto. destruct d; simpl; auto.
    apply (Happ "assistant"). now right.
Qed.

(** X10. In every state the program reaches, the viewport is exactly the
    rendering of the transcript, message by message in order (a user
    message as the styled ["You: "], an assistant message as the styled
    ["LLM: "], each followed by its content and two line feeds), and the
    transcript holds user and assistant messages only. *)
Theorem viewport_mirrors_transcript (Render : Renderer) (NewStreaming : Gateway)
        (s : Sys) :
  reachable Render NewStreaming s ->
  viewport (ui s) = renderTranscript Render (messages (ui s)) /\
  Forall (fun msg => role msg = "user" \/ role msg = "assistant")
         (messages (ui s)).
Proof.
  intros (apiKey & modelEnv & evs & Hrun).
  apply (run_with_ui_invariant (viewportMirrors Render) Render NewStreaming
                               (fun _ _ => true))
    with (evs := evs) (s := start apiKey modelEnv); [| |exact Hrun].
  - intros w m msg. apply Update_viewportMirrors.
  - unfold viewportMirrors, start, initialModel. simpl.
    destruct (nonempty apiKey); simpl; split; auto.
Qed.

Lemma viewport_mirrors_transcript_witness :
  exists s,
    run plainRender helloGateway (start "key" "")
        (producerRunsAhead 7 ++ repeat (EvRun 0) 5) = Some s /\
    messages (ui s) = [ChatMessage "user" "hi"; ChatMessage "assistant" "Hello"] /\
    viewport (ui s) = renderTranscript plainRender (messages (ui s)) /\
    Forall (fun msg => role msg = "user" \/ role msg = "assistant")
           (messages (ui s)).
Proof.
  destruct (run plainRender helloGateway (start "key" "")
              (producerRunsAhead 7 ++ repeat (EvRun 0) 5)) as [s|] eqn:Hrun;
    [|vm_compute in Hrun; discriminate Hrun].
  exists s. split; [reflexivity|]. split.
  - vm_compute in Hrun. injection Hrun as <-. reflexivity.
  - apply (viewport_mirrors_transcript plainRender helloGateway).
    exists "key", "", (producerRunsAhead 7 ++ repeat (EvRun 0) 5)%list.
    exact Hrun.
Defined.

(** ** The producer, from the first chunk to the close *)

Lemma run_cons (Render : Renderer) (NewStreaming : Gateway) (s : Sys)
      (e : Event) (evs : list Event) :
  run Render NewStreaming s (e :: evs)
  = match step Render NewStreaming s e with
    | Some s' => run Render NewStreaming s' evs
    | None => None
    end.
Proof. reflexivity. Qed.

Lemma run_app (Render : Renderer) (NewStreaming : Gateway) (evs1 evs2 : list Event) :
  forall s s1,
    run Render NewStreaming s evs1 = Some s1 ->
    run Render NewStreaming s (evs1 ++ evs2) = run Render NewStreaming s1 evs2.
Proof.
  induction evs1 as [|e evs1 IH]; intros s s1 H.
  - now injection H as <-.
  - simpl. rewrite run_cons in *.
    destruct (step Render NewStreaming s e) as [s'|]; [|discriminate].
    now apply IH.
Qed.

(** One step of a goroutine that has not finished. *)
Lemma step_go (Render : Renderer) (NewStreaming : Gateway)
      (m : model) (chs : list Chan.t) (gs : list goroutine) (pend : list Cmd)
      (i : nat) (g g' : goroutine) (w' : World) :
  gs !! i = Some g -> g <> GDone ->
  startStreamingInBackground NewStreaming (MkWorld chs gs false) g = (w', g') ->
  step Render NewStreaming (MkSys m (MkWorld chs gs false) pend false) (EvGo i)
  = Some (MkSys m (MkWorld (chans w') (<[i := g']> (goroutines w')) (panicked w'))
                pend false).
Proof.
  intros Hi Hg Hstep. unfold step. simpl. rewrite Hi.
  destruct g; try congruence; rewrite Hstep; reflexivity.
Qed.

Lemma relayed_cons (chunk : ChatCompletionChunk) (cs : list ChatCompletionChunk) :
  relayed (chunk :: cs)
  = if nonempty (firstDelta chunk) then firstDelta chunk :: relayed cs
    else relayed cs.
Proof. reflexivity. Qed.

Lemma producer_relays_from_loop (Render : Renderer) (NewStreaming : Gateway)
      (m : model) (pend : list Cmd) (i : nat) (ch : chanref)
      (serr : option string) (cs : list ChatCompletionChunk) :
  forall (chs : list Chan.t) (gs : list goroutine) (c : Chan.t)
         (fullResponse : string),
    gs !! i = Some (GLoop ch cs serr fullResponse) ->
    chs !! ch = Some c -> Chan.closed c = false ->
    length (Chan.buf c) + length (relayed cs) < Chan.capacity c ->
    run Render NewStreaming (MkSys m (MkWorld chs gs false) pend false)
        (repeat (EvGo i) (length cs + 2))
    = Some (MkSys m
              (MkWorld
                 (<[ch := Chan.Make
                            (Chan.buf c ++ cumulative fullResponse (relayed cs)
                             ++ [finalEvent serr
                                   (fullResponse +:+ joined (relayed cs))])
                            (Chan.capacity c) true]> chs)
                 (<[i := GDone]> gs) false)
              pend false).
Proof.
  induction cs as [|chunk cs IH]; intros chs gs c fullResponse Hi Hch Hc Hroom.
  - (* the final send, then the deferred close *)
    assert (i < length gs) as Hilt by (eapply lookup_lt_Some; eauto).
    assert (ch < length chs) as Hchlt by (eapply lookup_lt_Some; eauto).
    simpl in Hroom. simpl repeat. rewrite run_cons.
    assert (startStreamingInBackground NewStreaming (MkWorld chs gs false)
              (GLoop ch [] serr fullResponse)
            = (MkWorld
                 (<[ch := Chan.Make (Chan.buf c ++ [finalEvent serr fullResponse])
                                    (Chan.capacity c) false]> chs) gs false,
               GClose ch)) as Hfinal.
    { destruct serr; simpl; unfold send_nonblocking; simpl; rewrite Hch;
        rewrite try_send_room by (assumption || lia); reflexivity. }
    rewrite (step_go _ _ _ _ _ _ _ _ _ _ Hi ltac:(discriminate) Hfinal).
    simpl. rewrite run_cons.
    erewrite step_go;
      [|apply list_lookup_insert_eq; exact Hilt|discriminate|].
    2:{ simpl. unfold close_chan. simpl.
        rewrite list_lookup_insert_eq by assumption. simpl. reflexivity. }
    simpl. rewrite !list_insert_insert_eq, string_app_nil_r. reflexivity.
  - assert (i < length gs) as Hilt by (eapply lookup_lt_Some; eauto).
    assert (ch < length chs) as Hchlt by (eapply lookup_lt_Some; eauto).
    change (length (chunk :: cs) + 2) with (S (length cs + 2)).
    simpl repeat. rewrite run_cons.
    rewrite relayed_cons in Hroom |- *.
    destruct (Choices chunk) as [|delta ds] eqn:Hchoices.
    + (* no choice *)
      assert (firstDelta chunk = "") as Hfd by (unfold firstDelta; now rewrite Hchoices).
      rewrite Hfd in Hroom |- *. simpl in Hroom |- *.
      erewrite step_go; [|exact Hi|discriminate|simpl; rewrite Hchoices; reflexivity].
      simpl.
      rewrite (IH chs (<[i := GLoop ch cs serr fullResponse]> gs) c fullResponse);
        [|apply list_lookup_insert_eq; exact Hilt|assumption|assumption|exact Hroom].
      now rewrite list_insert_insert_eq.
    + assert (firstDelta chunk = delta) as Hfd
          by (unfold firstDelta; now rewrite Hchoices).
      rewrite Hfd in Hroom |- *.
      destruct (nonempty delta) eqn:Hd.
      * (* a delta to relay *)
        simpl in Hroom.
        erewrite step_go; [|exact Hi|discriminate|].
        2:{ simpl. rewrite Hchoices, Hd. unfold send_nonblocking. simpl.
            rewrite Hch. rewrite try_send_room by (assumption || lia).
            reflexivity. }
        simpl.
        rewrite (IH (<[ch := Chan.Make (Chan.buf c ++ [fullResponse +:+ delta])
                                       (Chan.capacity c) false]> chs)
                    (<[i := GLoop ch cs serr (fullResponse +:+ delta)]> gs)
                    (Chan.Make (Chan.buf c ++ [fullResponse +:+ delta])
                               (Chan.capacity c) false)
                    (fullResponse +:+ delta));
          [|apply list_lookup_insert_eq; exact Hilt
           |apply list_lookup_insert_eq; exact Hchlt
           |reflexivity
           |simpl; rewrite length_app; simpl; lia].
        simpl. rewrite !list_insert_insert_eq, string_app_assoc.
        now rewrite <- app_assoc.
      * (* an empty delta *)
        erewrite step_go;
          [|exact Hi|discriminate|simpl; rewrite Hchoices, Hd; reflexivity].
        simpl.
        rewrite (IH chs (<[i := GLoop ch cs serr fullResponse]> gs) c fullResponse);
          [|apply list_lookup_insert_eq; exact Hilt|assumption|assumption|exact Hroom].
        now rewrite list_insert_insert_eq.
Qed.

(** The run of a goroutine from the call of the gateway to the close. *)
Lemma producer_run (Render : Renderer) (NewStreaming : Gateway)
        (m : model) (pend : list Cmd) (chs : list Chan.t) (gs : list goroutine)
        (i : nat) (ch : chanref) (c : Chan.t)
        (key : string) (msgs : list MessageParam) (name : string) :
  let stream := NewStreaming key msgs name in
  gs !! i = Some (GStart ch (Some key) msgs name) ->
  chs !! ch = Some c -> Chan.closed c = false ->
  length (Chan.buf c) + length (relayed (chunks stream)) < Chan.capacity c ->
  run Render NewStreaming (MkSys m (MkWorld chs gs false) pend false)
      (repeat (EvGo i) (length (chunks stream) + 3))
  = Some (MkSys m
            (MkWorld
               (<[ch := Chan.Make
                          (Chan.buf c ++ cumulative "" (relayed (chunks stream))
                           ++ [finalEvent (streamErr stream)
                                 (joined (relayed (chunks stream)))])
                          (Chan.capacity c) true]> chs)
               (<[i := GDone]> gs) false)
            pend false).
Proof.
  intros stream Hi Hch Hc Hroom.
  assert (i < length gs) as Hilt by (eapply lookup_lt_Some; eauto).
  replace (length (chunks stream) + 3) with (S (length (chunks stream) + 2)) by lia.
  simpl repeat. rewrite run_cons.
  erewrite step_go; [|exact Hi|discriminate|reflexivity].
  simpl.
  rewrite (producer_relays_from_loop Render NewStreaming m pend i ch
             (streamErr stream) (chunks stream) chs _ c "");
    [|apply list_lookup_insert_eq; exact Hilt|assumption|assumption|exact Hroom].
  now rewrite list_insert_insert_eq.
Qed.

(** X11. A goroutine started with a client on an open conduit that has
    room for the stream's non-empty deltas and for the terminal event
    besides (pending elements plus non-empty deltas stay below the
    capacity) runs to its end in one step per chunk and three more: it calls the gateway, sends after each non-empty first
    delta the text accumulated so far, sends the terminal event (done with
    all deltas joined, or the error of the stream), and closes the conduit;
    it does not panic and touches neither the model nor the pending
    commands nor any other channel or goroutine. *)
Theorem producer_relays_stream (Render : Renderer) (NewStreaming : Gateway)
        (m : model) (pend : list Cmd) (chs : list Chan.t) (gs : list goroutine)
        (i : nat) (ch : chanref) (c : Chan.t)
        (key : string) (msgs : list MessageParam) (name : string) :
  let stream := NewStreaming key msgs name in
  gs !! i = Some (GStart ch (Some key) msgs name) ->
  chs !! ch = Some c -> Chan.closed c = false ->
  length (Chan.buf c) + length (relayed (chunks stream)) < Chan.capacity c ->
  run Render NewStreaming (MkSys m (MkWorld chs gs false) pend false)
      (repeat (EvGo i) (length (chunks stream) + 3))
  = Some (MkSys m
            (MkWorld
               (<[ch := Chan.Make
                          (Chan.buf c ++ cumulative "" (relayed (chunks stream))
                           ++ [finalEvent (streamErr stream)
                                 (joined (relayed (chunks stream)))])
                          (Chan.capacity c) true]> chs)
               (<[i := GDone]> gs) false)
            pend false).
Proof.
  exact (producer_run Render NewStreaming m pend chs gs i ch c key msgs name).
Qed.

Lemma producer_relays_stream_witness :
  run plainRender helloGateway
      (MkSys (initialModel "key" "")
             (MkWorld [Chan.make streamChanCapacity]
                      [GStart 0 (Some "key") [UserMessage "hi"] "gpt-4o"] false)
             [Listen 0] false)
      (repeat (EvGo 0) 7)
  = Some (MkSys (initialModel "key" "")
            (MkWorld
               [Chan.Make ["H"; "He"; "Hel"; "Hello"; "DONE:Hello"] 100 true]
               [GDone] false)
            [Listen 0] false).
Proof.
  exact (producer_relays_stream plainRender helloGateway (initialModel "key" "")
           [Listen 0] [Chan.make streamChanCapacity]
           [GStart 0 (Some "key") [UserMessage "hi"] "gpt-4o"] 0 0
           (Chan.make streamChanCapacity) "key" [UserMessage "hi"] "gpt-4o"
           eq_refl eq_refl eq_refl
           ltac:(vm_compute; lia)).
Defined.

(** ** The consumer, from the first poll to the terminal event *)

Lemma streamEvent_partial (v : string) :
  looksTerminal v = false -> streamEvent v = streamUpdateMsg v.
Proof.
  unfold looksTerminal, streamEvent. intros H.
  apply orb_false_elim in H as [H1 H2]. now rewrite H1, H2.
Qed.

Lemma finalEvent_decoded (serr : option string) (text : string) :
  streamEvent (finalEvent serr text)
  = streamCompleteMsg (match serr with None => text | Some _ => "" end) serr.
Proof.
  destruct serr as [e|]; simpl;
    [apply streamEvent_error | apply streamEvent_done].
Qed.

(** One poll that finds an element queued. *)
Lemma step_poll_value (Render : Renderer) (NewStreaming : Gateway)
      (m : model) (chs : list Chan.t) (gs : list goroutine) (ch : chanref)
      (c : Chan.t) (v : string) (rest : list string) :
  chs !! ch = Some c -> Chan.buf c = v :: rest ->
  step Render NewStreaming (MkSys m (MkWorld chs gs false) [Listen ch] false)
       (EvRun 0)
  = Some (deliver Render
            (MkSys m
               (MkWorld (<[ch := Chan.Make rest (Chan.capacity c) (Chan.closed c)]> chs)
                        gs false)
               [] false)
            (streamEvent v)).
Proof.
  intros Hch Hb. unfold step. simpl.
  unfold listenForStreamUpdates, Chan.recv. simpl. rewrite Hch, Hb. reflexivity.
Qed.

Lemma consumer_drains (Render : Renderer) (NewStreaming : Gateway)
      (gs : list goroutine) (ch : chanref) (serr : option string) (text : string)
      (vs : list string) :
  forall (m : model) (chs : list Chan.t) (c : Chan.t),
    streamChan m = Some ch -> chs !! ch = Some c ->
    Chan.buf c = (vs ++ [finalEvent serr text])%list ->
    Forall (fun v => looksTerminal v = false) vs ->
    run Render NewStreaming (MkSys m (MkWorld chs gs false) [Listen ch] false)
        (repeat (EvRun 0) (length vs + 1))
    = Some (MkSys
              (Update Render emptyWorld (afterUpdates m vs)
                 (streamCompleteMsg
                    (match serr with None => text | Some _ => "" end) serr)).1.2
              (MkWorld (<[ch := Chan.Make [] (Chan.capacity c) (Chan.closed c)]> chs)
                       gs false)
              [] false).
Proof.
  induction vs as [|v vs IH]; intros m chs c Hs Hch Hb Hvs.
  - simpl repeat. rewrite run_cons.
    rewrite (step_poll_value _ _ _ _ _ _ _ _ _ Hch Hb), finalEvent_decoded.
    reflexivity.
  - inversion Hvs as [|? ? Hv Hvs']; subst.
    assert (ch < length chs) as Hchlt by (eapply lookup_lt_Some; eauto).
    simpl repeat. rewrite run_cons.
    rewrite (step_poll_value _ _ _ _ _ _ _ _ _ Hch Hb), (streamEvent_partial v Hv).
    unfold deliver. simpl.
    assert (streamChan (if nonempty v then set_partialResp m v else m) = Some ch)
      as Hs' by (destruct (nonempty v); exact Hs).
    rewrite Hs'. simpl.
    rewrite (IH _ _ (Chan.Make (vs ++ [finalEvent serr text])
                               (Chan.capacity c) (Chan.closed c)));
      [|exact Hs'|apply list_lookup_insert_eq; exact Hchlt|reflexivity|exact Hvs'].
    simpl. now rewrite list_insert_insert_eq.
Qed.

(** X12. When the conduit holds partial snapshots, none of which begins
    with a marker, followed by the terminal event, as many polls as there
    are elements change the model exactly as handling those updates in
    order and then the completion does; they empty the conduit and leave no
    poll pending. *)
Theorem consumer_drains_conduit (Render : Renderer) (NewStreaming : Gateway)
        (m : model) (chs : list Chan.t) (gs : list goroutine) (ch : chanref)
        (c : Chan.t) (vs : list string) (serr : option string) (text : string) :
  streamChan m = Some ch -> chs !! ch = Some c ->
  Chan.buf c = (vs ++ [finalEvent serr text])%list ->
  Forall (fun v => looksTerminal v = false) vs ->
  let terminal :=
    streamCompleteMsg (match serr with None => text | Some _ => "" end) serr in
  run Render NewStreaming (MkSys m (MkWorld chs gs false) [Listen ch] false)
      (repeat (EvRun 0) (length vs + 1))
  = Some (MkSys
            (handle Render (MkWorld chs gs false) m
                    (map streamUpdateMsg vs ++ [terminal])).2
            (MkWorld (<[ch := Chan.Make [] (Chan.capacity c) (Chan.closed c)]> chs)
                     gs false)
            [] false).
Proof.
  intros Hs Hch Hb Hvs terminal.
  rewrite (consumer_drains Render NewStreaming gs ch serr text vs m chs c)
    by assumption.
  rewrite handle_updates. reflexivity.
Qed.

Lemma consumer_drains_conduit_witness :
  let m := set_streamChan (set_loading (initialModel "key" "") true) (Some 0) in
  let c := Chan.Make ["H"; "He"; "DONE:Hello"] 100 true in
  run plainRender helloGateway (MkSys m (MkWorld [c] [GDone] false) [Listen 0] false)
      (repeat (EvRun 0) 3)
  = Some (MkSys
            (handle plainRender (MkWorld [c] [GDone] false) m
                    [streamUpdateMsg "H"; streamUpdateMsg "He";
                     streamCompleteMsg "Hello" None]).2
            (MkWorld [Chan.Make [] 100 true] [GDone] false)
            [] false).
Proof.
  exact (consumer_drains_conduit plainRender helloGateway
           (set_streamChan (set_loading (initialModel "key" "") true) (Some 0))
           [Chan.Make ["H"; "He"; "DONE:Hello"] 100 true] [GDone] 0
           (Chan.Make ["H"; "He"; "DONE:Hello"] 100 true)
           ["H"; "He"] None "Hello" eq_refl eq_refl eq_refl
           ltac:(repeat constructor)).
Defined.

(** ** A whole turn *)

Lemma cumulative_length (ds : list string) :
  forall full, length (cumulative full ds) = length ds.
Proof. induction ds as [|d ds IH]; intros full; simpl; [|rewrite IH]; reflexivity. Qed.

(** Every cumulative text is a prefix of the whole text. *)
Lemma cumulative_prefix (ds : list string) :
  forall full v,
    In v (cumulative full ds) -> exists r, v +:+ r = full +:+ joined ds.
Proof.
  induction ds as [|d ds IH]; intros full v Hin; simpl in Hin; [contradiction|].
  destruct Hin as [<- | Hin].
  - exists (joined ds). simpl. apply string_app_assoc.
  - destruct (IH _ _ Hin) as (r & Hr). exists r. rewrite Hr. simpl.
    apply string_app_assoc.
Qed.

Lemma looksTerminal_app (v r : string) :
  looksTerminal v = true -> looksTerminal (v +:+ r) = true.
Proof.
  unfold looksTerminal, HasPrefix. intros H.
  apply orb_true_iff in H. apply orb_true_iff.
  destruct H as [H | H]; [left | right]; now apply prefix_app.
Qed.

Lemma cumulative_not_terminal (ds : list string) :
  looksTerminal (joined ds) = false ->
  Forall (fun v => looksTerminal v = false) (cumulative "" ds).
Proof.
  intros H. apply Forall_forall. intros v Hin.
  apply list_elem_of_In in Hin.
  destruct (cumulative_prefix ds "" v Hin) as (r & Hr).
  destruct (looksTerminal v) eqn:Hv; [|reflexivity].
  apply (looksTerminal_app v r) in Hv. rewrite Hr in Hv.
  change ("" +:+ joined ds) with (joined ds) in Hv. congruence.
Qed.

(** From enter to the state in which the goroutine is started and the
    first poll is pending, the two commands of the batch run in order. *)
Lemma submit_starts_relay (Render : Renderer) (NewStreaming : Gateway)
      (m : model) (chs : list Chan.t) (gs : list goroutine) :
  nonempty (input m) = true -> loading m = false ->
  let m1 := (Update Render (MkWorld chs gs false) m (KeyMsg "enter")).1.2 in
  run Render NewStreaming (MkSys m (MkWorld chs gs false) [] false)
      [EvKey "enter"; EvRun 0; EvRun 0]
  = Some (MkSys
            (set_streamChan (set_partialResp (set_streaming m1 true) "")
                            (Some (length chs)))
            (MkWorld (chs ++ [Chan.make streamChanCapacity])
                     (gs ++ [GStart (length chs) (client m)
                               (map toParam (messages m) ++ [UserMessage (input m)])
                               (modelName m)])
                     false)
            [Listen (length chs)] false).
Proof.
  intros Hi Hl m1. subst m1. rewrite !run_cons.
  unfold step at 1. simpl. unfold deliver. rewrite Update_enter. simpl.
  rewrite Hi, Hl. simpl. rewrite map_app. reflexivity.
Qed.

(** A turn from enter to the terminal event, the goroutine running ahead. *)
Lemma whole_turn (Render : Renderer) (NewStreaming : Gateway)
        (m : model) (chs : list Chan.t) (gs : list goroutine) (key : string) :
  let stream :=
    NewStreaming key (map toParam (messages m) ++ [UserMessage (input m)])%list
                 (modelName m) in
  let ds := relayed (chunks stream) in
  client m = Some key -> nonempty (input m) = true -> loading m = false ->
  length ds < streamChanCapacity -> looksTerminal (joined ds) = false ->
  exists s',
    run Render NewStreaming (MkSys m (MkWorld chs gs false) [] false)
        ([EvKey "enter"; EvRun 0; EvRun 0]
         ++ repeat (EvGo (length gs)) (length (chunks stream) + 3)
         ++ repeat (EvRun 0) (length ds + 1)) = Some s' /\
    pending s' = [] /\ exited s' = false /\ panicked (world s') = false /\
    input (ui s') = "" /\ loading (ui s') = false /\ streaming (ui s') = false /\
    partialResp (ui s') = "" /\ streamChan (ui s') = None /\
    match streamErr stream with
    | None =>
        messages (ui s')
        = (messages m ++ [ChatMessage "user" (input m);
                          ChatMessage "assistant" (joined ds)])%list /\
        err (ui s') = err m
    | Some e =>
        messages (ui s') = (messages m ++ [ChatMessage "user" (input m)])%list /\
        err (ui s') = Some e
    end.
Proof.
  intros stream ds Hc Hi Hl Hlen Hterm.
  pose proof (submit_starts_relay Render NewStreaming m chs gs Hi Hl) as HA.
  cbv zeta in HA. rewrite Hc, Update_enter, Hi, Hl in HA. simpl in HA.
  rewrite (run_app _ _ _ _ _ _ HA).
  match type of HA with _ = Some (MkSys ?x _ _ _) => set (m3 := x) in * end.
  pose proof (producer_run Render NewStreaming m3
                [Listen (length chs)]
                (chs ++ [Chan.make streamChanCapacity])
                (gs ++ [GStart (length chs) (Some key)
                          (map toParam (messages m) ++ [UserMessage (input m)])
                          (modelName m)])
                (length gs) (length chs) (Chan.make streamChanCapacity)
                key _ (modelName m)
                (list_lookup_middle gs [] _ _ eq_refl)
                (list_lookup_middle chs [] _ _ eq_refl)
                eq_refl Hlen) as HB.
  cbv zeta in HB. fold stream in HB. fold ds in HB.
  rewrite (run_app _ _ _ _ _ _ HB).
  rewrite <- (cumulative_length ds "").
  rewrite (consumer_drains Render NewStreaming _ (length chs)
             (streamErr stream) (joined ds) (cumulative "" ds) m3 _
             (Chan.Make (cumulative "" ds
                         ++ [finalEvent (streamErr stream) (joined ds)])
                        streamChanCapacity true));
    [|reflexivity
     |apply list_lookup_insert_eq; rewrite length_app; simpl; lia
     |reflexivity
     |now apply cumulative_not_terminal].
  eexists. split; [reflexivity|]. simpl.
  destruct (afterUpdates_frame m3 (cumulative "" ds))
    as (Hm & _ & _ & _ & He & Hin & _).
  subst m3. simpl in Hm, He, Hin.
  destruct (streamErr stream) as [e|]; simpl; rewrite ?Hm, ?He, ?Hin;
    repeat split; try reflexivity.
  now rewrite <- app_assoc.
Qed.

(** X13. A whole turn, the goroutine running ahead of the polls.  Let the
    model have a client, some input and no request in flight, and let the
    stream of the gateway (asked with the transcript and the new user
    message) have fewer than 100 non-empty first deltas whose joined text
    begins with neither marker.  Then enter, the two commands of the batch,
    the goroutine run to its end and one poll per element of the conduit
    leave the session idle again with the input cleared and nothing
    panicked; without a stream error the transcript has gained the user
    message and one assistant message whose content is that joined text;
    with a stream error it has gained the user message only and the error
    is stored. *)
Theorem turn_appends_joined_deltas (Render : Renderer) (NewStreaming : Gateway)
        (m : model) (chs : list Chan.t) (gs : list goroutine) (key : string) :
  let stream :=
    NewStreaming key (map toParam (messages m) ++ [UserMessage (input m)])%list
                 (modelName m) in
  let ds := relayed (chunks stream) in
  client m = Some key -> nonempty (input m) = true -> loading m = false ->
  length ds < streamChanCapacity -> looksTerminal (joined ds) = false ->
  exists s',
    run Render NewStreaming (MkSys m (MkWorld chs gs false) [] false)
        ([EvKey "enter"; EvRun 0; EvRun 0]
         ++ repeat (EvGo (length gs)) (length (chunks stream) + 3)
         ++ repeat (EvRun 0) (length ds + 1)) = Some s' /\
    pending s' = [] /\ exited s' = false /\ panicked (world s') = false /\
    input (ui s') = "" /\ loading (ui s') = false /\ streaming (ui s') = false /\
    partialResp (ui s') = "" /\ streamChan (ui s') = None /\
    match streamErr stream with
    | None =>
        messages (ui s')
        = (messages m ++ [ChatMessage "user" (input m);
                          ChatMessage "assistant" (joined ds)])%list /\
        err (ui s') = err m
    | Some e =>
        messages (ui s') = (messages m ++ [ChatMessage "user" (input m)])%list /\
        err (ui s') = Some e
    end.
Proof.
  exact (whole_turn Render NewStreaming m chs gs key).
Qed.

Lemma turn_appends_joined_deltas_witness :
  let m := set_input (initialModel "key" "") "hi" in
  exists s',
    run plainRender helloGateway (MkSys m (MkWorld [] [] false) [] false)
        ([EvKey "enter"; EvRun 0; EvRun 0]
         ++ repeat (EvGo 0) 7 ++ repeat (EvRun 0) 5) = Some s' /\
    pending s' = [] /\ exited s' = false /\ panicked (world s') = false /\
    input (ui s') = "" /\ loading (ui s') = false /\ streaming (ui s') = false /\
    partialResp (ui s') = "" /\ streamChan (ui s') = None /\
    messages (ui s')
    = [ChatMessage "user" "hi"; ChatMessage "assistant" "Hello"] /\
    err (ui s') = None.
Proof.
  exact (turn_appends_joined_deltas plainRender helloGateway
           (set_input (initialModel "key" "") "hi") [] [] "key"
           eq_refl eq_refl eq_refl ltac:(vm_compute; lia) eq_refl).
Defined.

(** ** The store of a program with a credential *)

Lemma storeOk_update_own (chs : list Chan.t) (gs : list goroutine) (i : nat)
      (g g' : goroutine) (c c' : Chan.t) :
  storeOk (MkWorld chs gs false) ->
  gs !! i = Some g -> chs !! i = Some c ->
  Chan.capacity c' = Chan.capacity c ->
  length (Chan.buf c') <= Chan.capacity c' ->
  clientless g' = false ->
  (forall ch, chanOf g' = Some ch -> ch = i /\ Chan.closed c' = false) ->
  storeOk (MkWorld (<[i := c']> chs) (<[i := g']> gs) false).
Proof.
  intros (_ & Hlen & Hchs & Hgs) Hg Hc Hcap Hbuf Hcl Hown. simpl in *.
  assert (i < length gs) as Hi by (eapply lookup_lt_Some; eauto).
  assert (i < length chs) as Hi' by (eapply lookup_lt_Some; eauto).
  unfold storeOk. simpl. split; [reflexivity|]. split.
  { now rewrite !length_insert. }
  split.
  - intros j cj Hj. destruct (decide (i = j)) as [<-|Hne].
    + rewrite list_lookup_insert_eq in Hj by assumption. injection Hj as <-.
      destruct (Hchs i c Hc) as [H1 H2]. split; [congruence | assumption].
    + rewrite list_lookup_insert_ne in Hj by assumption. eauto.
  - intros j gj Hj. destruct (decide (i = j)) as [<-|Hne].
    + rewrite list_lookup_insert_eq in Hj by assumption. injection Hj as <-.
      split; [assumption|]. intros ch Hch. destruct (Hown ch Hch) as [-> Hopen].
      split; [reflexivity|]. exists c'.
      now rewrite list_lookup_insert_eq by assumption.
    + rewrite list_lookup_insert_ne in Hj by assumption.
      destruct (Hgs j gj Hj) as [H1 H2]. split; [assumption|].
      intros ch Hch. destruct (H2 ch Hch) as (-> & cj & Hcj & Hopen).
      split; [reflexivity|]. exists cj.
      now rewrite list_lookup_insert_ne by assumption.
Qed.

(** A receive keeps the store in order. *)
Lemma storeOk_recv (chs : list Chan.t) (gs : list goroutine) (ch : chanref)
      (c c' : Chan.t) :
  storeOk (MkWorld chs gs false) -> chs !! ch = Some c ->
  Chan.capacity c' = Chan.capacity c ->
  length (Chan.buf c') <= length (Chan.buf c) ->
  Chan.closed c' = Chan.closed c ->
  storeOk (MkWorld (<[ch := c']> chs) gs false).
Proof.
  intros (_ & Hlen & Hchs & Hgs) Hc Hcap Hbuf Hcl. simpl in *.
  assert (ch < length chs) as Hi by (eapply lookup_lt_Some; eauto).
  unfold storeOk. simpl. split; [reflexivity|]. split.
  { now rewrite length_insert. }
  split.
  - intros j cj Hj. destruct (decide (ch = j)) as [<-|Hne].
    + rewrite list_lookup_insert_eq in Hj by assumption. injection Hj as <-.
      destruct (Hchs ch c Hc) as [H1 H2]. split; [congruence | lia].
    + rewrite list_lookup_insert_ne in Hj by assumption. eauto.
  - intros j gj Hj. destruct (Hgs j gj Hj) as [H1 H2]. split; [assumption|].
    intros ch' Hch'. destruct (H2 ch' Hch') as (-> & cj & Hcj & Hopen).
    split; [reflexivity|]. destruct (decide (ch = j)) as [<-|Hne].
    + exists c'. rewrite list_lookup_insert_eq by assumption.
      split; [reflexivity | congruence].
    + exists cj. now rewrite list_lookup_insert_ne by assumption.
Qed.

(** The [streamStarted] case with a client keeps the store in order. *)
Lemma storeOk_spawn (chs : list Chan.t) (gs : list goroutine)
      (key : string) (msgs : list MessageParam) (name : string) :
  storeOk (MkWorld chs gs false) ->
  storeOk (MkWorld (chs ++ [Chan.make streamChanCapacity])
                   (gs ++ [GStart (length chs) (Some key) msgs name]) false).
Proof.
  intros (_ & Hlen & Hchs & Hgs). simpl in *.
  unfold storeOk. simpl. split; [reflexivity|]. split.
  { rewrite !length_app. simpl. lia. }
  split.
  - intros j cj Hj. apply lookup_app_Some in Hj as [Hj | [_ Hj]]; [eauto|].
    apply list_lookup_singleton_Some in Hj as [_ <-]. simpl.
    split; [reflexivity | lia].
  - intros j gj Hj. apply lookup_app_Some in Hj as [Hj | [Hge Hj]].
    + destruct (Hgs j gj Hj) as [H1 H2]. split; [assumption|].
      intros ch Hch. destruct (H2 ch Hch) as (-> & cj & Hcj & Hopen).
      split; [reflexivity|]. exists cj. split; [|assumption].
      now apply lookup_app_l_Some.
    + apply list_lookup_singleton_Some in Hj as [Hz <-]. simpl.
      split; [reflexivity|]. intros ch [= <-].
      assert (j = length chs) as -> by lia.
      split; [reflexivity|]. exists (Chan.make streamChanCapacity).
      split; [|reflexivity].
      now rewrite (list_lookup_middle chs [] _ _ eq_refl).
Qed.

(** One step of a goroutine keeps the store in order: it sends on its own
    open channel only, and closes it once, as its last act. *)
Lemma storeOk_go (NewStreaming : Gateway) (chs : list Chan.t)
      (gs : list goroutine) (i : nat) (g g' : goroutine) (w' : World) :
  storeOk (MkWorld chs gs false) -> gs !! i = Some g -> g <> GDone ->
  startStreamingInBackground NewStreaming (MkWorld chs gs false) g = (w', g') ->
  storeOk (MkWorld (chans w') (<[i := g']> (goroutines w')) (panicked w')).
Proof.
  intros Hok Hg Hnd Hstep.
  pose proof Hok as (_ & _ & Hchs & Hgs). simpl in *.
  destruct (Hgs i g Hg) as [Hcl Hown].
  assert (exists ch, chanOf g = Some ch) as [ch Hch]
      by (destruct g; simpl; eauto; congruence).
  destruct (Hown ch Hch) as (-> & c & Hc & Hopen).
  destruct (Hchs i c Hc) as [Hcap Hbuf].
  assert (forall v,
            exists c1,
              send_nonblocking (MkWorld chs gs false) i v
              = MkWorld (<[i := c1]> chs) gs false /\
              Chan.capacity c1 = Chan.capacity c /\
              length (Chan.buf c1) <= Chan.capacity c1 /\
              Chan.closed c1 = false) as Hsend.
  { intros v. unfold send_nonblocking, Chan.try_send. simpl. rewrite Hc, Hopen.
    destruct (Nat.ltb_spec (length (Chan.buf c)) (Chan.capacity c)).
    - eexists. split; [reflexivity|]. simpl. rewrite length_app. simpl.
      repeat split; lia.
    - exists c. auto. }
  assert (MkWorld chs gs false = MkWorld (<[i := c]> chs) gs false) as Hid
      by now rewrite (list_insert_id _ _ _ Hc).
  destruct g as [ch0 [key|] msgs name | ch0 [|chunk rest] serr full | ch0 | ];
    simpl in Hch, Hcl; try congruence; injection Hch as ->.
  - (* the call of the gateway *)
    simpl in Hstep. injection Hstep as <- <-. simpl.
    rewrite <- (list_insert_id _ _ _ Hc) at 1.
    eapply storeOk_update_own; eauto. simpl. intros ch [= <-]. auto.
  - (* the final send *)
    assert (g' = GClose i /\
            exists v, w' = send_nonblocking (MkWorld chs gs false) i v)
      as [-> [v ->]]
        by (destruct serr; simpl in Hstep; injection Hstep as <- <-; eauto).
    destruct (Hsend v) as (c1 & -> & H1 & H2 & H3). simpl.
    eapply storeOk_update_own; eauto. simpl. intros ch [= <-]. auto.
  - (* one chunk *)
    simpl in Hstep.
    destruct (Choices chunk) as [|delta ds].
    + injection Hstep as <- <-. simpl.
      rewrite <- (list_insert_id _ _ _ Hc) at 1.
      eapply storeOk_update_own; eauto. simpl. intros ch [= <-]. auto.
    + destruct (nonempty delta).
      * injection Hstep as <- <-.
        destruct (Hsend (full +:+ delta)) as (c1 & -> & H1 & H2 & H3). simpl.
        eapply storeOk_update_own; eauto. simpl. intros ch [= <-]. auto.
      * injection Hstep as <- <-. simpl.
        rewrite <- (list_insert_id _ _ _ Hc) at 1.
        eapply storeOk_update_own; eauto. simpl. intros ch [= <-]. auto.
  - (* the deferred close *)
    simpl in Hstep. unfold close_chan, Chan.close in Hstep. simpl in Hstep.
    rewrite Hc, Hopen in Hstep. injection Hstep as <- <-. simpl.
    eapply storeOk_update_own; eauto; simpl; try lia; try discriminate; try reflexivity.
Qed.

(** [Update] changes the store in the [streamStarted] case only. *)
Lemma Update_world (Render : Renderer) (w : World) (m : model) (msg : Msg) :
  (Update Render w m msg).1.1 = w \/
  exists c l n,
    msg = streamStarted c l n /\
    (Update Render w m msg).1.1
    = MkWorld (chans w ++ [Chan.make streamChanCapacity])
              (goroutines w ++ [GStart (length (chans w)) c l n]) (panicked w).
Proof.
  destruct msg as [key|c e| |c l n|c|c e|c d e|]; simpl; auto.
  - key_cases key; auto.
    + destruct (nonempty (input m) && negb (loading m)); auto.
    + destruct (0 <? String.length (input m))%nat; auto.
    + destruct (loading m); auto.
  - destruct e; auto.
  - right. exists c, l, n. auto.
  - destruct (nonempty c); simpl; destruct (streamChan m); auto.
  - destruct e; auto. destruct d; auto.
Qed.

(** With a client in the model, no command [Update] returns carries a nil
    client. *)
Lemma Update_cmd_has_client (Render : Renderer) (w : World) (m : model) (msg : Msg) :
  client m <> None ->
  Forall (fun c => nilRequest c = false) (started (Update Render w m msg).2).
Proof.
  intros Hc.
  destruct msg as [key|c e| |c l n|c|c e|c d e|]; simpl.
  1:{ key_cases key; try (repeat constructor; fail).
      - destruct (nonempty (input m) && negb (loading m)); simpl;
          [|constructor].
        repeat constructor. destruct (client m); [reflexivity | congruence].
      - destruct (0 <? String.length (input m))%nat; simpl; constructor.
      - destruct (loading m); simpl; constructor. }
  all: try destruct e; try destruct d; try destruct (nonempty c); simpl;
    try destruct (streamChan m); simpl; repeat constructor.
Qed.

Lemma deliver_sysOk (Render : Renderer) (s : Sys) (msg : Msg) :
  sysOk s -> (forall l n, msg <> streamStarted None l n) ->
  sysOk (deliver Render s msg).
Proof.
  intros (Hst & Hc & Hp) Hmsg. unfold deliver.
  pose proof (Update_world Render (world s) (ui s) msg) as Hw.
  pose proof (Update_only_appends Render (world s) (ui s) msg) as (_ & Hc' & _).
  pose proof (Update_cmd_has_client Render (world s) (ui s) msg Hc) as Hcmd.
  destruct (Update Render (world s) (ui s) msg) as [[w' m'] c]. simpl in *.
  unfold sysOk. simpl. split; [|split].
  - destruct Hw as [-> | (cl & l & n & -> & ->)]; [assumption|].
    destruct cl as [key|]; [|now destruct (Hmsg l n)].
    destruct (world s) as [chs gs pk]. pose proof Hst as (Hpk & _).
    simpl in Hpk. subst pk. now apply storeOk_spawn.
  - congruence.
  - apply Forall_app. auto.
Qed.

Lemma listen_storeOk (w w' : World) (ch : chanref) (msg : Msg) :
  storeOk w -> listenForStreamUpdates w ch = Some (msg, w') -> storeOk w'.
Proof.
  intros Hst Hl. destruct w as [chs gs pk]. pose proof Hst as (Hpk & _).
  simpl in Hpk. subst pk. unfold listenForStreamUpdates in Hl. simpl in Hl.
  destruct (chs !! ch) as [c|] eqn:Hch; [|discriminate].
  unfold Chan.recv in Hl. destruct (Chan.buf c) as [|v rest] eqn:Hb.
  - destruct (Chan.closed c); injection Hl as _ <-; exact Hst.
  - injection Hl as _ <-.
    eapply storeOk_recv; eauto; simpl; rewrite ?Hb; simpl; lia.
Qed.

Lemma step_sysOk (Render : Renderer) (NewStreaming : Gateway) (s s' : Sys)
      (e : Event) :
  sysOk s -> step Render NewStreaming s e = Some s' -> sysOk s'.
Proof.
  intros Hok Hstep. unfold step in Hstep.
  destruct (exited s || panicked (world s)); [discriminate|].
  destruct e as [key| |i|i].
  - injection Hstep as <-. apply deliver_sysOk; [assumption | discriminate].
  - injection Hstep as <-. apply deliver_sysOk; [assumption | discriminate].
  - destruct (pending s !! i) as [c|] eqn:Hi; [|discriminate].
    pose proof Hok as (Hst & Hc & Hp).
    pose proof (Forall_lookup_1 _ _ _ _ Hp Hi) as Hci. simpl in Hci.
    pose proof (Forall_delete _ _ i Hp) as Hp'.
    destruct c as [| |msg|c1 c2|ch]; try discriminate.
    + injection Hstep as <-. unfold sysOk. simpl. auto.
    + injection Hstep as <-. apply deliver_sysOk.
      * unfold sysOk. simpl. auto.
      * intros l n ->. discriminate.
    + destruct (listenForStreamUpdates (world s) ch) as [[msg w]|] eqn:Hl;
        [|discriminate].
      injection Hstep as <-.
      pose proof (listen_storeOk _ _ _ _ Hst Hl) as Hst'.
      destruct (listen_result _ _ _ _ Hl) as [[text ->] | (text & e0 & ->)];
        (apply deliver_sysOk; [|discriminate]); unfold sysOk; simpl; auto.
  - destruct (goroutines (world s) !! i) as [g|] eqn:Hi; [|discriminate].
    destruct Hok as (Hst & Hc & Hp).
    destruct (world s) as [chs gs pk] eqn:Hw. pose proof Hst as (Hpk & _).
    simpl in Hpk. subst pk. simpl in Hi.
    destruct (startStreamingInBackground NewStreaming (MkWorld chs gs false) g)
      as [w' g'] eqn:Hgo.
    assert (g <> GDone) as Hnd by (intros ->; discriminate).
    pose proof (storeOk_go NewStreaming chs gs i g g' w' Hst Hi Hnd Hgo) as Hst'.
    destruct g; try congruence; injection Hstep as <-;
      unfold sysOk; simpl; auto.
Qed.

(** What every step keeps, every run keeps. *)
Lemma run_invariant (I : Sys -> Prop) (Render : Renderer) (NewStreaming : Gateway) :
  (forall s s' e, I s -> step Render NewStreaming s e = Some s' -> I s') ->
  forall evs s s', I s -> run Render NewStreaming s evs = Some s' -> I s'.
Proof.
  intros HI. induction evs as [|e evs IH]; intros s s' H Hrun.
  - now injection Hrun as <-.
  - rewrite run_cons in Hrun.
    destruct (step Render NewStreaming s e) as [s1|] eqn:Hstep; [|discriminate].
    eapply IH; [|exact Hrun]. eapply HI; eauto.
Qed.

(** X14. A program started with a credential never panics, whatever the
    provider answers and however goroutines, commands and keys are
    scheduled: no goroutine sends on a closed channel or closes a channel
    twice (nor does the consumer), every channel has capacity 100 and never
    holds more than 100 elements, and channels and goroutines come in
    pairs. *)
Theorem credential_runs_never_panic (Render : Renderer) (NewStreaming : Gateway)
        (apiKey modelEnv : string) (evs : list Event) (s : Sys) :
  nonempty apiKey = true ->
  run Render NewStreaming (start apiKey modelEnv) evs = Some s ->
  panicked (world s) = false /\
  length (chans (world s)) = length (goroutines (world s)) /\
  forall j c,
    chans (world s) !! j = Some c ->
    Chan.capacity c = 100 /\ length (Chan.buf c) <= 100.
Proof.
  intros Hkey Hrun.
  assert (sysOk (start apiKey modelEnv)) as H0.
  { unfold sysOk, storeOk, start, initialModel. rewrite Hkey. simpl.
    repeat split; auto; try discriminate; intros j x Hj; discriminate. }
  destruct (run_invariant sysOk Render NewStreaming
              (step_sysOk Render NewStreaming) evs _ _ H0 Hrun)
    as ((Hp & Hlen & Hchs & _) & _).
  split; [exact Hp|]. split; [exact Hlen|].
  intros j c Hj. destruct (Hchs j c Hj) as [H1 H2].
  unfold streamChanCapacity in H1. split; [exact H1 | lia].
Qed.

Lemma credential_runs_never_panic_witness :
  exists s,
    run plainRender burstGateway (start "key" "")
        (producerRunsAhead 104 ++ repeat (EvRun 0) 50) = Some s /\
    panicked (world s) = false /\
    length (chans (world s)) = length (goroutines (world s)) /\
    forall j c,
      chans (world s) !! j = Some c ->
      Chan.capacity c = 100 /\ length (Chan.buf c) <= 100.
Proof.
  destruct (run plainRender burstGateway (start "key" "")
              (producerRunsAhead 104 ++ repeat (EvRun 0) 50)) as [s|] eqn:Hrun;
    [|vm_compute in Hrun; discriminate Hrun].
  exists s. split; [reflexivity|].
  exact (credential_runs_never_panic plainRender burstGateway "key" "" _ s
           eq_refl Hrun).
Defined.

(** ** Without a credential *)

(** X15. A request submitted from a model without client (the state
    without credential, once something is typed) ends the process: when the
    goroutine started for it runs, it panics on the nil client, and nothing
    is handled afterwards; the user message has been appended before. *)
Theorem request_without_client_panics (Render : Renderer) (NewStreaming : Gateway)
        (m : model) (chs : list Chan.t) (gs : list goroutine) :
  client m = None -> nonempty (input m) = true -> loading m = false ->
  exists s',
    run Render NewStreaming (MkSys m (MkWorld chs gs false) [] false)
        [EvKey "enter"; EvRun 0; EvRun 0; EvGo (length gs)] = Some s' /\
    panicked (world s') = true /\
    messages (ui s') = (messages m ++ [ChatMessage "user" (input m)])%list /\
    forall e, step Render NewStreaming s' e = None.
Proof.
  intros Hc Hi Hl.
  pose proof (submit_starts_relay Render NewStreaming m chs gs Hi Hl) as HA.
  cbv zeta in HA. rewrite Hc, Update_enter, Hi, Hl in HA. simpl in HA.
  change [EvKey "enter"; EvRun 0; EvRun 0; EvGo (length gs)]
    with ([EvKey "enter"; EvRun 0; EvRun 0] ++ [EvGo (length gs)])%list.
  rewrite (run_app _ _ _ _ _ _ HA), run_cons.
  unfold step at 1. simpl.
  rewrite (list_lookup_middle gs [] _ _ eq_refl). simpl.
  eexists. split; [reflexivity|]. simpl. split; [reflexivity|].
  split; [reflexivity|]. intros e. reflexivity.
Qed.

Lemma request_without_client_panics_witness :
  exists s',
    run plainRender helloGateway
        (MkSys (set_input (fatal "") "hi") (MkWorld [] [] false) [] false)
        [EvKey "enter"; EvRun 0; EvRun 0; EvGo 0] = Some s' /\
    panicked (world s') = true /\
    messages (ui s') = [ChatMessage "user" "hi"] /\
    forall e, step plainRender helloGateway s' e = None.
Proof.
  exact (request_without_client_panics plainRender helloGateway
           (set_input (fatal "") "hi") [] [] eq_refl eq_refl eq_refl).
Defined.

Lemma Update_fatal (Render : Renderer) (w : World) (m : model) (msg : Msg) :
  fatalMsg msg = true -> client m = None ->
  let '(w', m', c) := Update Render w m msg in
  client m' = None /\ err m' = err m /\
  Forall (fun c => fatalCmd c = true) (started c) /\
  (w' = w \/
   exists ch l n,
     w' = MkWorld (chans w ++ [Chan.make streamChanCapacity])
                  (goroutines w ++ [GStart ch None l n]) (panicked w)).
Proof.
  intros Hmsg Hc.
  destruct msg as [key|c e| |[k|] l n|c|c [e|]|c d e|]; simpl in *;
    try discriminate.
  1:{ key_cases key; try (repeat split; auto; repeat constructor; fail).
      - destruct (nonempty (input m) && negb (loading m)); simpl;
          repeat split; auto; repeat constructor. now rewrite Hc.
      - destruct (0 <? String.length (input m))%nat; simpl;
          repeat split; auto; constructor.
      - destruct (loading m); simpl; repeat split; auto; constructor. }
  all: try destruct (nonempty c); simpl; try destruct (streamChan m); simpl;
    repeat split; auto;
    try (right; do 3 eexists; reflexivity); repeat constructor.
Qed.

Lemma deliver_fatalOk (Render : Renderer) (s : Sys) (msg : Msg) :
  fatalOk s -> fatalMsg msg = true -> fatalOk (deliver Render s msg).
Proof.
  intros (Hc & He & Hp & Hchs & Hgs) Hmsg. unfold deliver.
  pose proof (Update_fatal Render (world s) (ui s) msg Hmsg Hc) as H.
  destruct (Update Render (world s) (ui s) msg) as [[w' m'] c].
  destruct H as (Hc' & He' & Hcmd & Hw). unfold fatalOk. simpl.
  split; [assumption|]. split; [congruence|]. split; [now apply Forall_app|].
  destruct Hw as [-> | (ch & l & n & ->)]; [auto|]. simpl.
  split.
  - apply Forall_app. split; [assumption|].
    constructor; [reflexivity | constructor].
  - apply Forall_app. split; [assumption|].
    constructor; [right; reflexivity | constructor].
Qed.

Lemma step_fatalOk (Render : Renderer) (NewStreaming : Gateway) (s s' : Sys)
      (e : Event) :
  fatalOk s -> step Render NewStreaming s e = Some s' -> fatalOk s'.
Proof.
  intros Hok Hstep. unfold step in Hstep.
  destruct (exited s || panicked (world s)); [discriminate|].
  destruct e as [key| |i|i].
  - injection Hstep as <-. now apply deliver_fatalOk.
  - injection Hstep as <-. now apply deliver_fatalOk.
  - destruct (pending s !! i) as [c|] eqn:Hi; [|discriminate].
    pose proof Hok as (Hc & He & Hp & Hchs & Hgs).
    pose proof (Forall_lookup_1 _ _ _ _ Hp Hi) as Hci. simpl in Hci.
    pose proof (Forall_delete _ _ i Hp) as Hp'.
    destruct c as [| |msg|c1 c2|ch]; try discriminate.
    + injection Hstep as <-. unfold fatalOk. simpl. auto.
    + injection Hstep as <-. apply deliver_fatalOk.
      * unfold fatalOk. simpl. auto.
      * destruct msg as [| | |[k|] l n| | | |]; simpl in *; congruence.
    + unfold listenForStreamUpdates in Hstep.
      destruct (chans (world s) !! ch) as [c|] eqn:Hch; [|discriminate].
      pose proof (Forall_lookup_1 _ _ _ _ Hchs Hch) as Hb. simpl in Hb.
      unfold Chan.recv in Hstep. rewrite Hb in Hstep.
      destruct (Chan.closed c); injection Hstep as <-;
        (apply deliver_fatalOk; [|reflexivity]); unfold fatalOk; simpl; auto.
  - destruct (goroutines (world s) !! i) as [g|] eqn:Hi; [|discriminate].
    destruct Hok as (Hc & He & Hp & Hchs & Hgs).
    pose proof (Forall_lookup_1 _ _ _ _ Hgs Hi) as Hg. simpl in Hg.
    destruct Hg as [-> | Hg]; [discriminate|].
    destruct g as [ch [k|] l n | | |]; simpl in Hg; try discriminate.
    simpl in Hstep. injection Hstep as <-. unfold fatalOk. simpl.
    repeat split; auto.
    + unfold close_chan.
      destruct (chans (world s) !! ch) as [c|] eqn:Hch; simpl; [|assumption].
      pose proof (Forall_lookup_1 _ _ _ _ Hchs Hch) as Hb. simpl in Hb.
      unfold Chan.close. destruct (Chan.closed c); simpl; [assumption|].
      apply Forall_insert; assumption.
    + unfold close_chan.
      destruct (chans (world s) !! ch) as [c|]; simpl;
        [destruct (Chan.close c); simpl|];
        apply Forall_insert; auto.
Qed.

(** X16. In a program started without credential the error field holds
    the credential error in every state it reaches, whatever is typed or
    submitted, so the view is the error view with that text throughout; the
    model never gets a client and nothing is ever sent on a channel. *)
Theorem without_credential_error_stays (Render : Renderer)
        (NewStreaming : Gateway) (modelEnv : string) (evs : list Event) (s : Sys) :
  run Render NewStreaming (start "" modelEnv) evs = Some s ->
  err (ui s) = Some credentialError /\
  View Render (ui s) = errorView Render credentialError /\
  client (ui s) = None /\
  Forall (fun c => Chan.buf c = []) (chans (world s)).
Proof.
  intros Hrun.
  assert (fatalOk (start "" modelEnv)) as H0.
  { unfold fatalOk, start, initialModel. simpl. repeat split; constructor. }
  destruct (run_invariant fatalOk Render NewStreaming
              (step_fatalOk Render NewStreaming) evs _ _ H0 Hrun)
    as (Hc & He & _ & Hchs & _).
  split; [exact He|]. split; [now apply View_error|]. auto.
Qed.

Lemma without_credential_error_stays_witness :
  exists s,
    run plainRender helloGateway (start "" "")
        (submitHi ++ [EvRun 0; EvRun 0; EvRun 0; EvKey "x"; EvGo 0]) = Some s /\
    panicked (world s) = true /\
    err (ui s) = Some credentialError /\
    View plainRender (ui s) = errorView plainRender credentialError /\
    client (ui s) = None /\
    Forall (fun c => Chan.buf c = []) (chans (world s)).
Proof.
  destruct (run plainRender helloGateway (start "" "")
              (submitHi ++ [EvRun 0; EvRun 0; EvRun 0; EvKey "x"; EvGo 0]))
    as [s|] eqn:Hrun; [|vm_compute in Hrun; discriminate Hrun].
  exists s. split; [reflexivity|]. split.
  - vm_compute in Hrun. injection Hrun as <-. reflexivity.
  - exact (without_credential_error_stays plainRender helloGateway "" _ s Hrun).
Defined.

(** ** Typing and the first turn *)

Lemma set_input_same (m : model) : set_input m (input m) = m.
Proof. now destruct m. Qed.

Lemma handle_literal_keys (Render : Renderer) (w : World) (keys : list string) :
  forall m,
    Forall (fun key => literalKey key = true) keys -> loading m = false ->
    handle Render w m (map KeyMsg keys)
    = (w, set_input m (input m +:+ joined keys)).
Proof.
  induction keys as [|key keys IH]; intros m Hk Hl; cbn [map handle joined].
  - now rewrite string_app_nil_r, set_input_same.
  - inversion Hk as [|? ? Hkey Hkeys]; subst.
    rewrite Update_literal by assumption. rewrite Hl.
    rewrite IH by assumption. unfold set_input. simpl.
    now rewrite string_app_assoc.
Qed.

(** X17. With no request in flight, a sequence of literal keys appends
    their texts to the input buffer in the order typed and changes nothing
    else. *)
Theorem typing_appends_in_order (Render : Renderer) (w : World) (m : model)
        (keys : list string) :
  Forall (fun key => literalKey key = true) keys -> loading m = false ->
  handle Render w m (map KeyMsg keys) = (w, set_input m (input m +:+ joined keys)).
Proof. apply handle_literal_keys. Qed.

Lemma typing_appends_in_order_witness :
  handle plainRender emptyWorld (initialModel "key" "")
         (map KeyMsg ["h"; "e"; "y"; " "; "up"])
  = (emptyWorld, set_input (initialModel "key" "") "hey up").
Proof.
  exact (typing_appends_in_order plainRender emptyWorld (initialModel "key" "")
           ["h"; "e"; "y"; " "; "up"] ltac:(repeat constructor) eq_refl).
Defined.

(** Literal keys typed into the running program. *)
Lemma run_literal_keys (Render : Renderer) (NewStreaming : Gateway)
      (w : World) (pend : list Cmd) (keys : list string) :
  forall m,
    panicked w = false ->
    Forall (fun key => literalKey key = true) keys -> loading m = false ->
    run Render NewStreaming (MkSys m w pend false) (map EvKey keys)
    = Some (MkSys (set_input m (input m +:+ joined keys)) w pend false).
Proof.
  intros m Hp. revert m.
  induction keys as [|key keys IH]; intros m Hk Hl; cbn [map joined].
  - now rewrite string_app_nil_r, set_input_same.
  - inversion Hk as [|? ? Hkey Hkeys]; subst.
    rewrite run_cons. unfold step. cbn [exited world orb]. rewrite Hp.
    unfold deliver. rewrite Update_literal by assumption.
    cbn [ui world pending exited started]. rewrite Hl, app_nil_r.
    rewrite IH by assumption. unfold set_input. simpl.
    now rewrite string_app_assoc.
Qed.

(** X18. The first turn of a program started with a credential.  After the
    text is typed with literal keys and submitted, the gateway is asked with
    the API key, the one user message and the model named by OPENAI_MODEL,
    or gpt-4o when that is empty.  If its stream has fewer than 100
    non-empty first deltas whose joined text begins with neither marker,
    the turn ends with the transcript holding the user message and, without
    a stream error, one assistant message with the joined text; with a
    stream error the user message alone, the error stored. *)
Theorem first_turn (Render : Renderer) (NewStreaming : Gateway)
        (apiKey modelEnv : string) (keys : list string) :
  let name := if nonempty modelEnv then modelEnv else "gpt-4o" in
  let stream := NewStreaming apiKey [UserMessage (joined keys)] name in
  let ds := relayed (chunks stream) in
  nonempty apiKey = true ->
  Forall (fun key => literalKey key = true) keys ->
  nonempty (joined keys) = true ->
  length ds < streamChanCapacity -> looksTerminal (joined ds) = false ->
  exists s',
    run Render NewStreaming (start apiKey modelEnv)
        (map EvKey keys
         ++ [EvKey "enter"; EvRun 0; EvRun 0]
         ++ repeat (EvGo 0) (length (chunks stream) + 3)
         ++ repeat (EvRun 0) (length ds + 1)) = Some s' /\
    pending s' = [] /\ panicked (world s') = false /\
    input (ui s') = "" /\ loading (ui s') = false /\
    match streamErr stream with
    | None =>
        messages (ui s')
        = [ChatMessage "user" (joined keys); ChatMessage "assistant" (joined ds)] /\
        err (ui s') = None
    | Some e =>
        messages (ui s') = [ChatMessage "user" (joined keys)] /\
        err (ui s') = Some e
    end.
Proof.
  intros name stream ds Hkey Hk Hne Hlen Hterm.
  assert (start apiKey modelEnv
          = MkSys (Model (Some apiKey) name [] "" "" false false "" None None)
                  (MkWorld [] [] false) [] false) as ->
      by (unfold start, initialModel; now rewrite Hkey).
  rewrite (run_app Render NewStreaming _ _ _ _
             (run_literal_keys Render NewStreaming (MkWorld [] [] false) []
                keys (Model (Some apiKey) name [] "" "" false false "" None None)
                eq_refl Hk eq_refl)).
  simpl input. change ("" +:+ joined keys) with (joined keys).
  destruct (whole_turn Render NewStreaming
              (set_input (Model (Some apiKey) name [] "" "" false false "" None None)
                         (joined keys))
              [] [] apiKey eq_refl Hne eq_refl Hlen Hterm)
    as (s' & Hrun & Hp & _ & Hpk & Hin & Hl & _ & _ & _ & Hm).
  exists s'. split; [exact Hrun|]. auto.
Qed.

Lemma first_turn_witness :
  exists s',
    run plainRender helloGateway (start "key" "")
        (map EvKey ["h"; "i"]
         ++ [EvKey "enter"; EvRun 0; EvRun 0]
         ++ repeat (EvGo 0) 7 ++ repeat (EvRun 0) 5) = Some s' /\
    pending s' = [] /\ panicked (world s') = false /\
    input (ui s') = "" /\ loading (ui s') = false /\
    messages (ui s') = [ChatMessage "user" "hi"; ChatMessage "assistant" "Hello"] /\
    err (ui s') = None.
Proof.
  exact (first_turn plainRender helloGateway "key" "" ["h"; "i"]
           eq_refl ltac:(repeat constructor) eq_refl
           ltac:(vm_compute; lia) eq_refl).
Defined.
